(** * perun: command interpretation and the configuration wizard

    A shallow embedding of the three Go sources of perun
    ([cliparser/cliparser.go], [configurator/configurator.go], [main.go])
    and the properties of its specification that they decide.

    Conventions of the embedding:
    - a Go [*T] field is an [option T], [None] being the nil pointer;
    - a Go [int]/[int64] is a [Z] (no arithmetic is performed on them, only
      comparisons, so no wrap-around is involved);
    - a Go [map[string]string] is a [gmap string string];
    - console output, prompts and collaborator calls are recorded, oldest
      first, in an explicit world that is threaded through the code;
    - [for cond { ... }] loops take a fuel argument; they return [None]
      exactly when the fuel runs out before the loop condition fails. *)

From Stdlib Require Import ZArith Lia Ascii.
From stdpp Require Import base option list strings pretty gmap.

(* ===================================================================== *)
(** ** configurator/configurator.go *)
(* ===================================================================== *)

Module configurator.

(** [var resourceSpecificationURL = map[string]string{...}] (lines 11-26). *)
Definition resourceSpecificationURL : gmap string string :=
  list_to_map
    [ ("us-east-2",      "https://dnwj8swjjbsbt.cloudfront.net");
      ("us-east-1",      "https://d1uauaxba7bl26.cloudfront.net");
      ("us-west-1",      "https://d68hl49wbnanq.cloudfront.net");
      ("us-west-2",      "https://d201a2mn26r7lk.cloudfront.net");
      ("ap-south-1",     "https://d2senuesg1djtx.cloudfront.net");
      ("ap-northeast-2", "https://d1ane3fvebulky.cloudfront.net");
      ("ap-southeast-1", "https://doigdx0kgq9el.cloudfront.net");
      ("ap-southeast-2", "https://d2stg8d246z9di.cloudfront.net");
      ("ap-northeast-1", "https://d33vqc0rt9ld30.cloudfront.net");
      ("ca-central-1",   "https://d2s8ygphhesbe7.cloudfront.net");
      ("eu-central-1",   "https://d1mta8qj7i28i2.cloudfront.net");
      ("eu-west-1",      "https://d3teyb21fexa9r.cloudfront.net");
      ("eu-west-2",      "https://d1742qcu2c1ncx.cloudfront.net");
      ("sa-east-1",      "https://d3c9jyj3w509b0.cloudfront.net") ].

(** [func makeArrayRegions() [14]string] (lines 114-132): the array after the
    fourteen assignments [regions[0] = ...] to [regions[13] = ...]. *)
Definition makeArrayRegions : list string :=
  [ "us-east-1"; "us-east-2"; "us-west-1"; "us-west-2";
    "ca-central-1"; "ca-central-1"; "eu-west-1"; "eu-west-2";
    "ap-northeast-1"; "ap-northeast-2"; "ap-southeast-1"; "ap-southeast-2";
    "ap-south-1"; "sa-east-1" ].

(** The fields of [configuration.Configuration] that the composite literal of
    [createConfig] names (lines 103-109).  The struct is declared in the
    [configuration] package, which is not among the sources. *)
Record Configuration := {
  DefaultProfile : string;
  DefaultRegion : string;
  SpecificationURL : gmap string string;
  DefaultDecisionForMFA : bool;
  DefaultDurationForMFA : Z;
  DefaultVerbosity : string
}.

(** What the wizard prints, asks and hands over. *)
Inductive Event :=
| Always (msg : string)                       (* context.Logger.Always *)
| Error (msg : string)                        (* context.Logger.Error *)
| GetInput (prompt : string)                  (* context.Logger.GetInput *)
| SaveToFile (con : Configuration) (path : string). (* configuration.SaveToFile *)

(** The world the wizard runs in: how many prompts have been answered, and
    everything it did so far (oldest first). *)
Record World := {
  reads : nat;
  trace : list Event
}.

Definition emit (e : Event) (w : World) : World :=
  {| reads := reads w; trace := trace w ++ [e] |}.

(** The world [w] after [n] more answers and the two events [e1], [e2]. *)
Definition after2 (w : World) (n : nat) (e1 e2 : Event) : World :=
  {| reads := n + reads w; trace := trace w ++ [e1; e2] |}.

(** The three outcomes of [os.Stat] that [findFile] tells apart through
    [os.IsNotExist]: no error, an error for which [os.IsNotExist] holds, and
    any other error. *)
Inductive StatResult := StatFound | StatNotExist | StatFailed.

Definition IsNotExist (r : StatResult) : bool :=
  match r with StatNotExist => true | _ => false end.

Section Wizard.

(** The operator and the machine.  [Logger.GetInput], [os.Stat] and
    [myuser.GetUserHomeDir] are not among the sources; what they deliver is
    a parameter of the wizard. *)

(** [Logger.GetInput(prompt, &v)] on an [int] variable [v]; the spec has it
    read an integer (section 4.4).  [answerInt k] is what the call leaves in
    [v] when it is the one that answers prompt number [k]. *)
Variable answerInt : nat -> Z.

(** [Logger.GetInput(prompt, &v)] on a [string] variable [v]:
    [answerString k] is what the call leaves in [v] when it is the one that
    answers prompt number [k]. *)
Variable answerString : nat -> string.

(** [os.Stat(path)], as far as [os.IsNotExist] tells. *)
Variable Stat : string -> StatResult.

(** [myuser.GetUserHomeDir()]: the path and the error, if any. *)
Variable GetUserHomeDir : string * option string.

(** The Go escape [\n]. *)
Definition nl : string := String (Ascii.ascii_of_nat 10) EmptyString.

Definition getInputInt (prompt : string) (w : World) : Z * World :=
  (answerInt (reads w),
   {| reads := S (reads w); trace := trace w ++ [GetInput prompt] |}).

Definition getInputString (prompt : string) (w : World) : string * World :=
  (answerString (reads w),
   {| reads := S (reads w); trace := trace w ++ [GetInput prompt] |}).

(** [regions[numberRegion]] on the [[14]string] array.  The guard of
    [setRegions] keeps the index in range wherever the code evaluates it, so
    the default (where Go would panic) is never reached: see
    [setRegions_accepted]. *)
Definition index (regions : list string) (i : Z) : string :=
  default "" (regions !! Z.to_nat i).

(** [func showRegions(context)] (lines 54-61). *)
Definition showRegions (w : World) : World :=
  let regions := makeArrayRegions in
  foldl (fun w i =>
           emit (Always ("Number " +:+ pretty (Z.of_nat i) +:+ " region "
                         +:+ default "" (regions !! i))) w)
        (emit (Always "Regions:") w)
        (seq 0 (length regions)).

(** [func setRegions(context) (region string, err bool)] (lines 63-76). *)
Definition setRegions (w : World) : (string * bool) * World :=
  let '(numberRegion, w) := getInputInt "Choose region" w in
  let regions := makeArrayRegions in
  if (0 <=? numberRegion)%Z && (numberRegion <? 14)%Z then
    let region := index regions numberRegion in
    ((region, true), emit (Always ("Your region is: " +:+ region)) w)
  else
    (("", false), emit (Error "Invalid region") w).

(** [func setProfile(context) (profile string, err bool)] (lines 78-88). *)
Definition setProfile (w : World) : (string * bool) * World :=
  let '(profile, w) := getInputString "Input name of profile" w in
  if negb (String.eqb profile "") then
    ((profile, true), emit (Always ("Your profile is: " +:+ profile)) w)
  else
    ((profile, false), emit (Error "Invalid profile") w).

(** Lines 92-95 of [createConfig]: [for !err { ...; myRegion, err =
    setRegions(context) }], entered with the result of the first call. *)
Fixpoint regionLoop (fuel : nat) (r : string * bool) (w : World)
  : option (string * World) :=
  if r.2 then Some (r.1, w)
  else match fuel with
       | O => None
       | S fuel =>
           let w := emit (Always "Try again, invalid region") w in
           let '(r, w) := setRegions w in
           regionLoop fuel r w
       end.

(** Lines 97-100 of [createConfig]: [for !err1 { ...; myProfile, err1 =
    setProfile(context) }]. *)
Fixpoint profileLoop (fuel : nat) (r : string * bool) (w : World)
  : option (string * World) :=
  if r.2 then Some (r.1, w)
  else match fuel with
       | O => None
       | S fuel =>
           let w := emit (Always "Try again, invalid profile") w in
           let '(r, w) := setProfile w in
           profileLoop fuel r w
       end.

(** Lines 91-95: the region-selection step with its retry loop. *)
Definition chooseRegion (fuel : nat) (w : World) : option (string * World) :=
  let '(r, w) := setRegions w in regionLoop fuel r w.

(** Lines 96-100: the profile-selection step with its retry loop. *)
Definition chooseProfile (fuel : nat) (w : World) : option (string * World) :=
  let '(r, w) := setProfile w in profileLoop fuel r w.

(** [func createConfig(context) configuration.Configuration] (lines 90-112).
    [fuel] bounds the iterations of each of the two loops. *)
Definition createConfig (fuel : nat) (w : World)
  : option (Configuration * World) :=
  match chooseRegion fuel w with
  | None => None
  | Some (myRegion, w) =>
      match chooseProfile fuel w with
      | None => None
      | Some (myProfile, w) =>
          let myResourceSpecificationURL := resourceSpecificationURL in
          let myConfig :=
            {| DefaultProfile := myProfile;
               DefaultRegion := myRegion;
               SpecificationURL := myResourceSpecificationURL;
               DefaultDecisionForMFA := false;
               DefaultDurationForMFA := 3600;
               DefaultVerbosity := "INFO" |} in
          Some (myConfig, w)
      end
  end.

(** [func findFile(path, context)] (lines 42-52). *)
Definition findFile (fuel : nat) (path : string) (w : World) : option World :=
  let w := emit (Always ("File will be created in " +:+ path)) w in
  if IsNotExist (Stat path) then
    let w := showRegions w in
    match createConfig fuel w with
    | None => None
    | Some (con, w) => Some (emit (SaveToFile con path) w)
    end
  else
    Some (emit (Always "File already exists in this path") w).

(** [func FileName(context)] (lines 28-40). *)
Definition FileName (fuel : nat) (w : World) : option World :=
  let '(homePath, pathError) := GetUserHomeDir in
  let w := match pathError with
           | Some e => emit (Error e) w
           | None => w
           end in
  let homePath := homePath +:+ "/.config/perun" in
  let w := emit (Always ("Configure file could be in " +:+ nl +:+ "  "
                         +:+ homePath +:+ nl +:+ "  /etc/perun")) w in
  let '(yourPath, w) := getInputString "Your path " w in
  let '(yourName, w) := getInputString "Filename " w in
  findFile fuel (yourPath +:+ "/" +:+ yourName) w.

End Wizard.

(** A sample session: the operator answers 20, then -1, then 5 to
    "Choose region", then nothing and then "dev" to "Input name of profile". *)
Definition ints : nat -> Z := fun k => nth k [20; -1; 5]%Z 0%Z.
Definition strs : nat -> string := fun k => nth k [""; ""; ""; ""; "dev"] "".

(** The world before the wizard starts. *)
Definition w0 : World := {| reads := 0; trace := [] |}.

(** Whether an event is a call of [configuration.SaveToFile]. *)
Definition isSaveToFile (e : Event) : bool :=
  match e with SaveToFile _ _ => true | _ => false end.

(** [w'] is [w] after further prompts and console lines, none of them a call
    of [configuration.SaveToFile]. *)
Definition continues (w w' : World) : Prop :=
  reads w <= reads w' /\
  exists l, trace w' = trace w ++ l /\ Forall (fun e => isSaveToFile e = false) l.

End configurator.

(* ===================================================================== *)
(** ** gopkg.in/alecthomas/kingpin.v2, as far as perun uses it *)
(* ===================================================================== *)

(** [cliparser.go] declares its grammar with kingpin and leaves the reading
    of the argument list to [app.Parse].  kingpin is a library outside the
    repository.  [ParseCliArguments] below takes the behaviour of
    [app.Parse] as a parameter, and everything proved for all argument lists
    is proved for every such behaviour.  This module is a model of kingpin
    v2 for running [ParseCliArguments] on concrete command lines.

    It is a partial model: [Parse] answers [None] on an argument list that
    leaves the fragment it covers, and makes no statement there.  Outside
    the fragment are: an argument that starts with [@] (kingpin reads a file
    of further arguments), the single dash [-], a group of short flags
    ([-qy]) on a command line that also holds [--] or whose remainder starts
    with a dash, a value attached to a boolean flag ([--quiet=x]), [--]
    where the value of a flag is expected, a flag of a single value given
    twice, a colon in the key of a [KEY=VALUE] pair, integer literals other
    than plain decimal ones (kingpin reads them with
    [strconv.ParseInt(s, 0, 64)], whose other notations depend on the Go
    release), a command line without command, a request for help or for
    the version on a command line with an error, and the hidden flag
    [--completion-bash].  The text of kingpin's error messages is not
    modelled, an [Error] says which error it is. *)

Module kingpin.

(** The kinds of value the grammar of perun binds: [Bool()], [String()],
    [Int64()], [Enums(options...)] and [StringMap()]. *)
Inductive Kind :=
| KBool
| KString
| KInt64
| KEnums (options : list string)
| KStringMap.

Definition IsBoolFlag (k : Kind) : bool :=
  match k with KBool => true | _ => false end.

Definition IsCumulative (k : Kind) : bool :=
  match k with KEnums _ | KStringMap => true | _ => false end.

(** What matching a clause sets off besides binding its value. *)
Inductive Action :=
| NoAction
| Terminates      (* a pre-action that prints and ends the process, status 0 *)
| ShowsHelp       (* [app.HelpFlag]: usage, then status 0, once parsing succeeded *)
| NotModelled.    (* [--completion-bash] *)

Record FlagClause := {
  flagName : string;
  flagShort : option ascii;
  flagKind : Kind;
  flagAction : Action
}.

(** A positional argument; its value is a [String()], or a [Strings()] that
    takes all remaining positionals when [argRemainder] is set. *)
Record ArgClause := {
  argName : string;
  argRequired : bool;
  argRemainder : bool
}.

Record CmdClause := {
  cmdName : string;
  cmdArgs : list ArgClause;
  cmdFlags : list FlagClause;
  cmdAction : Action
}.

Record Application := {
  appFlags : list FlagClause;
  appCommands : list CmdClause
}.

(** The variable a clause is bound to: the flag, or the argument, of that
    name of a command (of the application itself when the command is ""). *)
Definition Target : Type := (string * string) + (string * string).
Definition FlagOf (cmd name : string) : Target := inl (cmd, name).
Definition ArgOf (cmd name : string) : Target := inr (cmd, name).

Inductive Value :=
| VBool (b : bool)
| VString (s : string)
| VInt64 (z : Z)
| VStrings (l : list string)
| VStringMap (m : gmap string string).

(** The bound variables after [app.Parse]; a variable that was never set is
    absent and reads as the zero value of its type. *)
Definition Store : Type := gmap Target Value.

Inductive Error :=
| ErrExpectedCommand (token : string)
| ErrUnknownLongFlag (name : string)
| ErrUnknownShortFlag (c : ascii)
| ErrExpectedArgument (flag : string)
| ErrUnexpected (token : string)
| ErrEnumValue (value : string)
| ErrInt64Value (value : string)
| ErrStringMapValue (value : string)
| ErrRequiredArgument (arg : string).

(** What [app.Parse] does: it returns a command with the variables bound,
    returns an error, or ends the process itself (help, version, usage). *)
Inductive ParseResult (B : Type) :=
| Parsed (command : string) (b : B)
| ParseError (e : Error)
| Terminated (code : Z).
Arguments Parsed {B} command b.
Arguments ParseError {B} e.
Arguments Terminated {B} code.

(** A step of the model: a result, an error of kingpin, or an input outside
    the fragment. *)
Inductive Res (A : Type) :=
| Ok (a : A)
| Fail (e : Error)
| Outside.
Arguments Ok {A} a.
Arguments Fail {A} e.
Arguments Outside {A}.

Definition bindRes {A B : Type} (r : Res A) (k : A -> Res B) : Res B :=
  match r with
  | Ok a => k a
  | Fail e => Fail e
  | Outside => Outside
  end.

(** *** Strings *)

(** [strings.SplitN(s, sep, 2)] for a separator among the characters that
    [sep] accepts: the text before the first separator and the text after
    it, when there is one. *)
Fixpoint splitFirst (sep : ascii -> bool) (s : string) : string * option string :=
  match s with
  | EmptyString => (EmptyString, None)
  | String c s' =>
      if sep c then (EmptyString, Some s')
      else let '(before, after) := splitFirst sep s' in (String c before, after)
  end.

Definition isEq (c : ascii) : bool := Ascii.eqb c "=".

Definition dropPrefix (n : nat) (s : string) : string :=
  String.substring n (String.length s - n) s.

Definition isDigit (c : ascii) : bool :=
  (48 <=? nat_of_ascii c)%nat && (nat_of_ascii c <=? 57)%nat.

Fixpoint digitsValue (acc : Z) (s : string) : Z :=
  match s with
  | EmptyString => acc
  | String c s' => digitsValue (10 * acc + (Z.of_nat (nat_of_ascii c) - 48)) s'
  end.

Fixpoint allChars (p : ascii -> bool) (s : string) : bool :=
  match s with
  | EmptyString => true
  | String c s' => p c && allChars p s'
  end.

(** A plain decimal literal: "0", or digits that do not start with 0. *)
Definition plainDecimal (s : string) : bool :=
  match s with
  | EmptyString => false
  | String c s' =>
      allChars isDigit s && (negb (Ascii.eqb c "0") || String.eqb s' "")
  end.

(** The characters of the integer literals of Go. *)
Definition literalChar (c : ascii) : bool :=
  isDigit c
  || existsb (Ascii.eqb c)
       (String.list_ascii_of_string "abcdefABCDEFxXoO_+-").

(** [strconv.ParseInt(s, 0, 64)] on an optional sign and a plain decimal
    literal: the value, or the range error.  A text with a character that no
    literal has is a syntax error; the other notations are not read. *)
Definition ParseInt (s : string) : Res Z :=
  let '(neg, digits) :=
    match s with
    | String "-" s' => (true, s')
    | String "+" s' => (false, s')
    | _ => (false, s)
    end in
  if plainDecimal digits then
    let z := if neg then (- digitsValue 0 digits)%Z else digitsValue 0 digits in
    if ((-9223372036854775808 <=? z) && (z <=? 9223372036854775807))%Z
    then Ok z else Fail (ErrInt64Value s)
  else if allChars literalChar s then Outside
  else Fail (ErrInt64Value s).

(** *** The parse context *)

(** What was matched, in order ([ParseContext.Elements]), each clause with
    the command that declares it ("" for the application). *)
Inductive Element :=
| ElFlag (cmd : string) (f : FlagClause) (value : string)
| ElArg (cmd : string) (a : ArgClause) (value : string)
| ElCmd (c : CmdClause).

Record ParseContext := {
  flags : list (string * FlagClause);   (* the flags in scope, latest first *)
  SelectedCommand : option CmdClause;
  arguments : list ArgClause;           (* the positionals still to bind *)
  argsOnly : bool;                      (* a [--] was read *)
  Elements : list Element
}.

Definition matched (e : Element) (c : ParseContext) : ParseContext :=
  {| flags := flags c; SelectedCommand := SelectedCommand c;
     arguments := arguments c; argsOnly := argsOnly c;
     Elements := Elements c ++ [e] |}.

(** [matchedCmd]: the flags and the arguments of the command join the scope. *)
Definition matchedCmd (cmd : CmdClause) (c : ParseContext) : ParseContext :=
  {| flags := map (pair (cmdName cmd)) (cmdFlags cmd) ++ flags c;
     SelectedCommand := Some cmd;
     arguments := cmdArgs cmd; argsOnly := argsOnly c;
     Elements := Elements c ++ [ElCmd cmd] |}.

Definition withArguments (l : list ArgClause) (c : ParseContext) : ParseContext :=
  {| flags := flags c; SelectedCommand := SelectedCommand c;
     arguments := l; argsOnly := argsOnly c; Elements := Elements c |}.

Definition withArgsOnly (c : ParseContext) : ParseContext :=
  {| flags := flags c; SelectedCommand := SelectedCommand c;
     arguments := arguments c; argsOnly := true; Elements := Elements c |}.

Definition lookupLong (name : string) (c : ParseContext)
  : option (string * FlagClause) :=
  find (fun f => String.eqb (flagName f.2) name) (flags c).

Definition lookupShort (ch : ascii) (c : ParseContext)
  : option (string * FlagClause) :=
  find (fun f => match flagShort f.2 with
                 | Some s => Ascii.eqb s ch
                 | None => false
                 end) (flags c).

(** What reading one raw argument leaves: the context with what was matched,
    and the error if reading failed there; a flag that takes its value from
    the next token; or an input outside the fragment. *)
Inductive Step :=
| Done (c : ParseContext) (err : option Error)
| NeedValue (f : string * FlagClause) (c : ParseContext)
| Unread.

Section Parser.

Variable app : Application.

(** A positional token: the command while none is selected, the next
    positional of the selected command after that. *)
Definition positional (v : string) (c : ParseContext) : Step :=
  match SelectedCommand c with
  | None =>
      match find (fun cmd => String.eqb (cmdName cmd) v) (appCommands app) with
      | Some cmd => Done (matchedCmd cmd c) None
      | None =>
          match appCommands app with
          | [] => Done c (Some (ErrUnexpected v))
          | _ => Done c (Some (ErrExpectedCommand v))
          end
      end
  | Some cmd =>
      match arguments c with
      | [] => Done c (Some (ErrUnexpected v))
      | a :: rest =>
          Done (matched (ElArg (cmdName cmd) a v)
                  (if argRemainder a then c else withArguments rest c)) None
      end
  end.

(** [--name], [--name=value], [--no-name]. *)
Definition longFlag (body : string) (c : ParseContext) : Step :=
  let '(name, attached) := splitFirst isEq body in
  let found :=
    match lookupLong name c with
    | Some f => Some (f, false)
    | None =>
        if String.prefix "no-" name
        then option_map (fun f => (f, true)) (lookupLong (dropPrefix 3 name) c)
        else None
    end in
  match found with
  | None => Done c (Some (ErrUnknownLongFlag name))
  | Some (f, invert) =>
      if IsBoolFlag (flagKind f.2) then
        match attached with
        | None =>
            Done (matched (ElFlag f.1 f.2 (if invert then "false" else "true")) c)
              None
        | Some _ => Unread
        end
      else if invert then Done c (Some (ErrUnknownLongFlag name))
      else match attached with
           | Some v => Done (matched (ElFlag f.1 f.2 v) c) None
           | None => NeedValue f c
           end
  end.

(** [-q], [-qy], [-d5]: short flags, read one character at a time.
    [dashdash] tells whether some raw argument is [--]. *)
Fixpoint shortFlags (dashdash : bool) (chars : string) (c : ParseContext) : Step :=
  match chars with
  | EmptyString => Done c None
  | String ch rest =>
      match lookupShort ch c with
      | None => Done c (Some (ErrUnknownShortFlag ch))
      | Some f =>
          if IsBoolFlag (flagKind f.2) then
            let c := matched (ElFlag f.1 f.2 "true") c in
            match rest with
            | EmptyString => Done c None
            | String r _ =>
                if dashdash || Ascii.eqb r "-" then Unread
                else shortFlags dashdash rest c
            end
          else match rest with
               | EmptyString => NeedValue f c
               | _ => Done (matched (ElFlag f.1 f.2 rest) c) None
               end
      end
  end.

(** One raw argument that no flag is waiting for. *)
Definition step (dashdash : bool) (a : string) (c : ParseContext) : Step :=
  if argsOnly c then positional a c
  else if String.eqb a "--" then Done (withArgsOnly c) None
  else if String.prefix "--" a then longFlag (dropPrefix 2 a) c
  else if String.eqb a "-" then Unread
  else if String.prefix "-" a then shortFlags dashdash (dropPrefix 1 a) c
  else if String.prefix "@" a then Unread
  else positional a c.

(** The raw argument after a flag that waits for its value. *)
Definition valueToken (flag : string) (r : string) : Res string :=
  if String.eqb r "--" || String.eqb r "-" || String.prefix "@" r then Outside
  else if String.prefix "-" r then Fail (ErrExpectedArgument flag)
  else Ok r.

(** The loop of kingpin's [parse]: the context after the last argument, or
    the context at the first error with that error. *)
Fixpoint parse (dashdash : bool) (args : list string) (c : ParseContext)
  : option (ParseContext * option Error) :=
  match args with
  | [] => Some (c, None)
  | a :: rest =>
      match step dashdash a c with
      | Done c None => parse dashdash rest c
      | Done c (Some e) => Some (c, Some e)
      | Unread => None
      | NeedValue f c =>
          match rest with
          | [] => Some (c, Some (ErrExpectedArgument (flagName f.2)))
          | r :: rest =>
              match valueToken (flagName f.2) r with
              | Ok v => parse dashdash rest (matched (ElFlag f.1 f.2 v) c)
              | Fail e => Some (c, Some e)
              | Outside => None
              end
          end
      end
  end.

(** *** Setting the values *)

(** [Set(value)] on the variable of a clause of kind [k] that holds [old]. *)
Definition setValue (k : Kind) (old : option Value) (v : string) : Res Value :=
  match k with
  | KBool => Ok (VBool (String.eqb v "true"))
  | KString => Ok (VString v)
  | KInt64 => bindRes (ParseInt v) (fun z => Ok (VInt64 z))
  | KEnums options =>
      if existsb (String.eqb v) options then
        Ok (VStrings (match old with
                      | Some (VStrings l) => l ++ [v]
                      | _ => [v]
                      end))
      else Fail (ErrEnumValue v)
  | KStringMap =>
      match splitFirst isEq v with
      | (key, after) =>
          if negb (allChars (fun c => negb (Ascii.eqb c ":")) key)
          then Outside
          else match after with
               | Some val =>
                   Ok (VStringMap (<[key := val]> (match old with
                                                   | Some (VStringMap m) => m
                                                   | _ => ∅
                                                   end)))
               | None => Fail (ErrStringMapValue v)
               end
      end
  end.

(** [setValues]: every matched flag and argument is set, in order; [seen]
    holds the names of the flags set so far. *)
Fixpoint setValues (els : list Element) (seen : list string) (st : Store)
  : Res Store :=
  match els with
  | [] => Ok st
  | ElFlag cmd f v :: els =>
      if existsb (String.eqb (flagName f)) seen
         && negb (IsCumulative (flagKind f))
      then Outside
      else
        bindRes (setValue (flagKind f) (st !! FlagOf cmd (flagName f)) v)
          (fun x =>
             setValues els (flagName f :: seen)
               (<[FlagOf cmd (flagName f) := x]> st))
  | ElArg cmd a v :: els =>
      let x :=
        if argRemainder a then
          VStrings (match st !! ArgOf cmd (argName a) with
                    | Some (VStrings l) => l ++ [v]
                    | _ => [v]
                    end)
        else VString v in
      setValues els seen (<[ArgOf cmd (argName a) := x]> st)
  | ElCmd _ :: els => setValues els seen st
  end.

Definition hasAction (a : Action) (e : Element) : bool :=
  let same (b : Action) :=
    match a, b with
    | NoAction, NoAction | Terminates, Terminates
    | ShowsHelp, ShowsHelp | NotModelled, NotModelled => true
    | _, _ => false
    end in
  match e with
  | ElFlag _ f _ => same (flagAction f)
  | ElCmd c => same (cmdAction c)
  | ElArg _ _ _ => false
  end.

Definition bindsArg (name : string) (e : Element) : bool :=
  match e with
  | ElArg _ a _ => String.eqb (argName a) name
  | _ => false
  end.

(** [validateRequired], for the arguments: the first required positional of
    the selected command that was not bound. *)
Definition validateRequired (c : ParseContext) : option Error :=
  match SelectedCommand c with
  | None => None
  | Some cmd =>
      match find (fun a => argRequired a
                           && negb (existsb (bindsArg (argName a)) (Elements c)))
                 (cmdArgs cmd) with
      | Some a => Some (ErrRequiredArgument (argName a))
      | None => None
      end
  end.

(** [app.Parse(args)]: [parse], then [setValues], then the help and the
    pre-actions of what was matched, then [validateRequired].  The model
    answers for a help or version request only when nothing else is wrong
    with the command line, and has no answer when no command is given. *)
Definition Parse (args : list string) : option (ParseResult Store) :=
  let c0 := {| flags := map (pair "") (appFlags app);
               SelectedCommand := None; arguments := [];
               argsOnly := false; Elements := [] |} in
  match parse (existsb (String.eqb "--") args) args c0 with
  | None => None
  | Some (c, parseErr) =>
      if existsb (hasAction NotModelled) (Elements c) then None
      else if existsb (hasAction Terminates) (Elements c)
              || existsb (hasAction ShowsHelp) (Elements c)
      then match parseErr, setValues (Elements c) [] ∅ with
           | None, Ok _ => Some (Terminated 0)
           | _, _ => None
           end
      else
        match parseErr with
        | Some e => Some (ParseError e)
        | None =>
            match setValues (Elements c) [] ∅ with
            | Outside => None
            | Fail e => Some (ParseError e)
            | Ok st =>
                match validateRequired c with
                | Some e => Some (ParseError e)
                | None =>
                    match SelectedCommand c with
                    | Some cmd => Some (Parsed (cmdName cmd) st)
                    | None => None
                    end
                end
            end
        end
  end.

End Parser.

(** The selected command of a context is a command of the application and
    stands among the matched elements. *)
Definition selectedIsMatched (app : Application) (c : ParseContext) : Prop :=
  forall cmd,
    SelectedCommand c = Some cmd ->
    cmd ∈ appCommands app /\ ElCmd cmd ∈ Elements c.

(** The same of the context that a step leaves. *)
Definition stepOk (app : Application) (s : Step) : Prop :=
  match s with
  | Done c _ | NeedValue _ c => selectedIsMatched app c
  | Unread => True
  end.

(** *** Reading the bound variables *)

Definition getBool (st : Store) (t : Target) : bool :=
  match st !! t with Some (VBool b) => b | _ => false end.

Definition getString (st : Store) (t : Target) : string :=
  match st !! t with Some (VString s) => s | _ => "" end.

Definition getInt64 (st : Store) (t : Target) : Z :=
  match st !! t with Some (VInt64 z) => z | _ => 0%Z end.

Definition getStrings (st : Store) (t : Target) : list string :=
  match st !! t with Some (VStrings l) => l | _ => [] end.

Definition getStringMap (st : Store) (t : Target) : gmap string string :=
  match st !! t with Some (VStringMap m) => m | _ => ∅ end.

End kingpin.

(* ===================================================================== *)
(** ** The logger package *)
(* ===================================================================== *)

Module logger.

(** Modelled from the spec: [logger.IsVerbosityValid] is declared in the
    [logger] package, which is not among the sources.  Section 4.2: a
    verbosity string that is supplied "must belong to the fixed enumeration
    {TRACE, DEBUG, INFO, ERROR}". *)
Definition IsVerbosityValid (verbosity : string) : bool :=
  existsb (String.eqb verbosity) ["TRACE"; "DEBUG"; "INFO"; "ERROR"].

End logger.

(* ===================================================================== *)
(** ** cliparser/cliparser.go *)
(* ===================================================================== *)

Module cliparser.

(** Lines 29-40. *)
Definition ValidateMode : string := "validate".
Definition ConvertMode : string := "convert".
Definition OfflineValidateMode : string := "validate_offline".
Definition ConfigureMode : string := "configure".
Definition CreateStackMode : string := "create-stack".
Definition DestroyStackMode : string := "delete-stack".
Definition UpdateStackMode : string := "update-stack".
Definition MfaMode : string := "mfa".
Definition SetupSinkMode : string := "setup-remote-sink".
Definition DestroySinkMode : string := "destroy-remote-sink".
Definition CreateParametersMode : string := "create-parameters".
Definition SetStackPolicyMode : string := "set-stack-policy".

(** The twelve mode names of lines 29-40. *)
Definition Modes : list string :=
  [ ValidateMode; ConvertMode; OfflineValidateMode; ConfigureMode;
    CreateStackMode; DestroyStackMode; UpdateStackMode; MfaMode;
    SetupSinkMode; DestroySinkMode; CreateParametersMode;
    SetStackPolicyMode ].

(** [type CliArguments struct] (lines 45-68): every field is a pointer. *)
Record CliArguments := {
  Mode : option string;
  TemplatePath : option string;
  Parameters : option (gmap string string);
  OutputFilePath : option string;
  ConfigurationPath : option string;
  Quiet : option bool;
  Yes : option bool;
  Verbosity : option string;
  MFA : option bool;
  DurationForMFA : option Z;
  Profile : option string;
  Region : option string;
  Sandbox : option bool;
  Stack : option string;
  Capabilities : option (list string);
  PrettyPrint : option bool;
  Progress : option bool;
  ParametersFile : option string;
  Block : option bool;
  Unblock : option bool;
  DisableStackTermination : option bool;
  EnableStackTermination : option bool
}.

(** The zero value of the named result [cliArguments]: every pointer nil. *)
Definition zero : CliArguments :=
  {|
     Mode := None; TemplatePath := None; Parameters := None;
     OutputFilePath := None; ConfigurationPath := None; Quiet := None;
     Yes := None; Verbosity := None; MFA := None; DurationForMFA := None;
     Profile := None; Region := None; Sandbox := None; Stack := None;
     Capabilities := None; PrettyPrint := None; Progress := None;
     ParametersFile := None; Block := None; Unblock := None;
     DisableStackTermination := None; EnableStackTermination := None
  |}.

(** [cliArguments.F = v], for the fields that the cases of the switch
    assign. *)
Definition setMode (v : option string) (c : CliArguments) : CliArguments :=
  {|
     Mode := v; TemplatePath := TemplatePath c; Parameters := Parameters c;
     OutputFilePath := OutputFilePath c;
     ConfigurationPath := ConfigurationPath c; Quiet := Quiet c;
     Yes := Yes c; Verbosity := Verbosity c; MFA := MFA c;
     DurationForMFA := DurationForMFA c; Profile := Profile c;
     Region := Region c; Sandbox := Sandbox c; Stack := Stack c;
     Capabilities := Capabilities c; PrettyPrint := PrettyPrint c;
     Progress := Progress c; ParametersFile := ParametersFile c;
     Block := Block c; Unblock := Unblock c;
     DisableStackTermination := DisableStackTermination c;
     EnableStackTermination := EnableStackTermination c
  |}.

Definition setTemplatePath (v : option string) (c : CliArguments) : CliArguments :=
  {|
     Mode := Mode c; TemplatePath := v; Parameters := Parameters c;
     OutputFilePath := OutputFilePath c;
     ConfigurationPath := ConfigurationPath c; Quiet := Quiet c;
     Yes := Yes c; Verbosity := Verbosity c; MFA := MFA c;
     DurationForMFA := DurationForMFA c; Profile := Profile c;
     Region := Region c; Sandbox := Sandbox c; Stack := Stack c;
     Capabilities := Capabilities c; PrettyPrint := PrettyPrint c;
     Progress := Progress c; ParametersFile := ParametersFile c;
     Block := Block c; Unblock := Unblock c;
     DisableStackTermination := DisableStackTermination c;
     EnableStackTermination := EnableStackTermination c
  |}.

Definition setParameters (v : option (gmap string string)) (c : CliArguments) : CliArguments :=
  {|
     Mode := Mode c; TemplatePath := TemplatePath c; Parameters := v;
     OutputFilePath := OutputFilePath c;
     ConfigurationPath := ConfigurationPath c; Quiet := Quiet c;
     Yes := Yes c; Verbosity := Verbosity c; MFA := MFA c;
     DurationForMFA := DurationForMFA c; Profile := Profile c;
     Region := Region c; Sandbox := Sandbox c; Stack := Stack c;
     Capabilities := Capabilities c; PrettyPrint := PrettyPrint c;
     Progress := Progress c; ParametersFile := ParametersFile c;
     Block := Block c; Unblock := Unblock c;
     DisableStackTermination := DisableStackTermination c;
     EnableStackTermination := EnableStackTermination c
  |}.

Definition setOutputFilePath (v : option string) (c : CliArguments) : CliArguments :=
  {|
     Mode := Mode c; TemplatePath := TemplatePath c;
     Parameters := Parameters c; OutputFilePath := v;
     ConfigurationPath := ConfigurationPath c; Quiet := Quiet c;
     Yes := Yes c; Verbosity := Verbosity c; MFA := MFA c;
     DurationForMFA := DurationForMFA c; Profile := Profile c;
     Region := Region c; Sandbox := Sandbox c; Stack := Stack c;
     Capabilities := Capabilities c; PrettyPrint := PrettyPrint c;
     Progress := Progress c; ParametersFile := ParametersFile c;
     Block := Block c; Unblock := Unblock c;
     DisableStackTermination := DisableStackTermination c;
     EnableStackTermination := EnableStackTermination c
  |}.

Definition setStack (v : option string) (c : CliArguments) : CliArguments :=
  {|
     Mode := Mode c; TemplatePath := TemplatePath c;
     Parameters := Parameters c; OutputFilePath := OutputFilePath c;
     ConfigurationPath := ConfigurationPath c; Quiet := Quiet c;
     Yes := Yes c; Verbosity := Verbosity c; MFA := MFA c;
     DurationForMFA := DurationForMFA c; Profile := Profile c;
     Region := Region c; Sandbox := Sandbox c; Stack := v;
     Capabilities := Capabilities c; PrettyPrint := PrettyPrint c;
     Progress := Progress c; ParametersFile := ParametersFile c;
     Block := Block c; Unblock := Unblock c;
     DisableStackTermination := DisableStackTermination c;
     EnableStackTermination := EnableStackTermination c
  |}.

Definition setCapabilities (v : option (list string)) (c : CliArguments) : CliArguments :=
  {|
     Mode := Mode c; TemplatePath := TemplatePath c;
     Parameters := Parameters c; OutputFilePath := OutputFilePath c;
     ConfigurationPath := ConfigurationPath c; Quiet := Quiet c;
     Yes := Yes c; Verbosity := Verbosity c; MFA := MFA c;
     DurationForMFA := DurationForMFA c; Profile := Profile c;
     Region := Region c; Sandbox := Sandbox c; Stack := Stack c;
     Capabilities := v; PrettyPrint := PrettyPrint c; Progress := Progress c;
     ParametersFile := ParametersFile c; Block := Block c;
     Unblock := Unblock c;
     DisableStackTermination := DisableStackTermination c;
     EnableStackTermination := EnableStackTermination c
  |}.

Definition setPrettyPrint (v : option bool) (c : CliArguments) : CliArguments :=
  {|
     Mode := Mode c; TemplatePath := TemplatePath c;
     Parameters := Parameters c; OutputFilePath := OutputFilePath c;
     ConfigurationPath := ConfigurationPath c; Quiet := Quiet c;
     Yes := Yes c; Verbosity := Verbosity c; MFA := MFA c;
     DurationForMFA := DurationForMFA c; Profile := Profile c;
     Region := Region c; Sandbox := Sandbox c; Stack := Stack c;
     Capabilities := Capabilities c; PrettyPrint := v;
     Progress := Progress c; ParametersFile := ParametersFile c;
     Block := Block c; Unblock := Unblock c;
     DisableStackTermination := DisableStackTermination c;
     EnableStackTermination := EnableStackTermination c
  |}.

Definition setParametersFile (v : option string) (c : CliArguments) : CliArguments :=
  {|
     Mode := Mode c; TemplatePath := TemplatePath c;
     Parameters := Parameters c; OutputFilePath := OutputFilePath c;
     ConfigurationPath := ConfigurationPath c; Quiet := Quiet c;
     Yes := Yes c; Verbosity := Verbosity c; MFA := MFA c;
     DurationForMFA := DurationForMFA c; Profile := Profile c;
     Region := Region c; Sandbox := Sandbox c; Stack := Stack c;
     Capabilities := Capabilities c; PrettyPrint := PrettyPrint c;
     Progress := Progress c; ParametersFile := v; Block := Block c;
     Unblock := Unblock c;
     DisableStackTermination := DisableStackTermination c;
     EnableStackTermination := EnableStackTermination c
  |}.

Definition setBlock (v : option bool) (c : CliArguments) : CliArguments :=
  {|
     Mode := Mode c; TemplatePath := TemplatePath c;
     Parameters := Parameters c; OutputFilePath := OutputFilePath c;
     ConfigurationPath := ConfigurationPath c; Quiet := Quiet c;
     Yes := Yes c; Verbosity := Verbosity c; MFA := MFA c;
     DurationForMFA := DurationForMFA c; Profile := Profile c;
     Region := Region c; Sandbox := Sandbox c; Stack := Stack c;
     Capabilities := Capabilities c; PrettyPrint := PrettyPrint c;
     Progress := Progress c; ParametersFile := ParametersFile c; Block := v;
     Unblock := Unblock c;
     DisableStackTermination := DisableStackTermination c;
     EnableStackTermination := EnableStackTermination c
  |}.

Definition setUnblock (v : option bool) (c : CliArguments) : CliArguments :=
  {|
     Mode := Mode c; TemplatePath := TemplatePath c;
     Parameters := Parameters c; OutputFilePath := OutputFilePath c;
     ConfigurationPath := ConfigurationPath c; Quiet := Quiet c;
     Yes := Yes c; Verbosity := Verbosity c; MFA := MFA c;
     DurationForMFA := DurationForMFA c; Profile := Profile c;
     Region := Region c; Sandbox := Sandbox c; Stack := Stack c;
     Capabilities := Capabilities c; PrettyPrint := PrettyPrint c;
     Progress := Progress c; ParametersFile := ParametersFile c;
     Block := Block c; Unblock := v;
     DisableStackTermination := DisableStackTermination c;
     EnableStackTermination := EnableStackTermination c
  |}.

Definition setDisableStackTermination (v : option bool) (c : CliArguments) : CliArguments :=
  {|
     Mode := Mode c; TemplatePath := TemplatePath c;
     Parameters := Parameters c; OutputFilePath := OutputFilePath c;
     ConfigurationPath := ConfigurationPath c; Quiet := Quiet c;
     Yes := Yes c; Verbosity := Verbosity c; MFA := MFA c;
     DurationForMFA := DurationForMFA c; Profile := Profile c;
     Region := Region c; Sandbox := Sandbox c; Stack := Stack c;
     Capabilities := Capabilities c; PrettyPrint := PrettyPrint c;
     Progress := Progress c; ParametersFile := ParametersFile c;
     Block := Block c; Unblock := Unblock c; DisableStackTermination := v;
     EnableStackTermination := EnableStackTermination c
  |}.

Definition setEnableStackTermination (v : option bool) (c : CliArguments) : CliArguments :=
  {|
     Mode := Mode c; TemplatePath := TemplatePath c;
     Parameters := Parameters c; OutputFilePath := OutputFilePath c;
     ConfigurationPath := ConfigurationPath c; Quiet := Quiet c;
     Yes := Yes c; Verbosity := Verbosity c; MFA := MFA c;
     DurationForMFA := DurationForMFA c; Profile := Profile c;
     Region := Region c; Sandbox := Sandbox c; Stack := Stack c;
     Capabilities := Capabilities c; PrettyPrint := PrettyPrint c;
     Progress := Progress c; ParametersFile := ParametersFile c;
     Block := Block c; Unblock := Unblock c;
     DisableStackTermination := DisableStackTermination c;
     EnableStackTermination := v
  |}.

(** The variables that the declarations of lines 75-132 return pointers to,
    as [app.Parse] leaves them. *)
Module bound.
Record Vars := {
  quiet : bool;
  yes : bool;
  verbosity : string;
  mfa : bool;
  DurationForMFA : Z;
  profile : string;
  region : string;
  sandbox : bool;
  configurationPath : string;
  showProgress : bool;
  onlineValidateTemplate : string;
  offlineValidateTemplate : string;
  convertTemplate : string;
  convertOutputFile : string;
  convertPrettyPrint : bool;
  createStackName : string;
  createStackTemplate : string;
  createStackCapabilities : list string;
  createStackParams : gmap string string;
  createStackParametersFile : string;
  deleteStackName : string;
  updateStackName : string;
  updateStackTemplate : string;
  updateStackCapabilities : list string;
  createParametersTemplate : string;
  createParametersParamsOutputFile : string;
  createParametersParams : gmap string string;
  createParametersPrettyPrint : bool;
  setStackPolicyName : string;
  setStackPolicyTemplate : string;
  setDefaultBlockingStackPolicy : bool;
  setDefaultUnblockingStackPolicy : bool;
  setDisableStackTermination : bool;
  setEnableStackTermination : bool
}.
End bound.

(** Lines 222-231, "OTHER FLAGS": the ten assignments of the shared flags. *)
Definition otherFlags (b : bound.Vars) (c : CliArguments) : CliArguments :=
  {|
     Mode := Mode c; TemplatePath := TemplatePath c;
     Parameters := Parameters c; OutputFilePath := OutputFilePath c;
     ConfigurationPath := Some (bound.configurationPath b);
     Quiet := Some (bound.quiet b); Yes := Some (bound.yes b);
     Verbosity := Some (bound.verbosity b); MFA := Some (bound.mfa b);
     DurationForMFA := Some (bound.DurationForMFA b);
     Profile := Some (bound.profile b); Region := Some (bound.region b);
     Sandbox := Some (bound.sandbox b); Stack := Stack c;
     Capabilities := Capabilities c; PrettyPrint := PrettyPrint c;
     Progress := Some (bound.showProgress b);
     ParametersFile := ParametersFile c; Block := Block c;
     Unblock := Unblock c;
     DisableStackTermination := DisableStackTermination c;
     EnableStackTermination := EnableStackTermination c
  |}.

(** *** The grammar, lines 72-136 *)

Definition flag (name : string) (short : option ascii) (kind : kingpin.Kind)
  : kingpin.FlagClause :=
  {| kingpin.flagName := name; kingpin.flagShort := short;
     kingpin.flagKind := kind; kingpin.flagAction := kingpin.NoAction |}.

(** A flag that kingpin declares itself. *)
Definition builtin (name : string) (short : option ascii)
    (action : kingpin.Action) : kingpin.FlagClause :=
  {| kingpin.flagName := name; kingpin.flagShort := short;
     kingpin.flagKind := kingpin.KBool; kingpin.flagAction := action |}.

(** [.Arg(name, help).String()] and [.Arg(name, help).Required().String()]. *)
Definition arg (name : string) (required : bool) : kingpin.ArgClause :=
  {| kingpin.argName := name; kingpin.argRequired := required;
     kingpin.argRemainder := false |}.

Definition command (name : string) (args : list kingpin.ArgClause)
    (flags : list kingpin.FlagClause) : kingpin.CmdClause :=
  {| kingpin.cmdName := name; kingpin.cmdArgs := args;
     kingpin.cmdFlags := flags; kingpin.cmdAction := kingpin.NoAction |}.

Definition capabilities : kingpin.Kind :=
  kingpin.KEnums ["CAPABILITY_IAM"; "CAPABILITY_NAMED_IAM"].

(** [app], after [kingpin.New], the declarations, [app.HelpFlag.Short('h')]
    and [app.Version(...)]; the [help] command is the one kingpin adds to an
    application that has commands. *)
Definition app : kingpin.Application :=
  {| kingpin.appFlags :=
       [ builtin "help" (Some "h"%char) kingpin.ShowsHelp;
         builtin "help-long" None kingpin.Terminates;
         builtin "help-man" None kingpin.Terminates;
         builtin "completion-bash" None kingpin.NotModelled;
         builtin "completion-script-bash" None kingpin.Terminates;
         builtin "completion-script-zsh" None kingpin.Terminates;
         flag "quiet" (Some "q"%char) kingpin.KBool;
         flag "yes" (Some "y"%char) kingpin.KBool;
         flag "verbosity" (Some "v"%char) kingpin.KString;
         flag "mfa" None kingpin.KBool;
         flag "duration" (Some "d"%char) kingpin.KInt64;
         flag "profile" (Some "p"%char) kingpin.KString;
         flag "region" (Some "r"%char) kingpin.KString;
         flag "sandbox" None kingpin.KBool;
         flag "config" (Some "c"%char) kingpin.KString;
         flag "progress" None kingpin.KBool;
         builtin "version" None kingpin.Terminates ];
     kingpin.appCommands :=
       [ {| kingpin.cmdName := "help";
            kingpin.cmdArgs :=
              [ {| kingpin.argName := "command";
                   kingpin.argRequired := false;
                   kingpin.argRemainder := true |} ];
            kingpin.cmdFlags := [];
            kingpin.cmdAction := kingpin.Terminates |};
         command ValidateMode [arg "template" false] [];
         command OfflineValidateMode [arg "template" false] [];
         command ConvertMode [arg "template" false; arg "output" false]
           [flag "pretty-print" None kingpin.KBool];
         command ConfigureMode [] [];
         command CreateStackMode [arg "stack" true; arg "template" true]
           [ flag "capabilities" None capabilities;
             flag "parameter" None kingpin.KStringMap;
             flag "parameters-file" None kingpin.KString ];
         command DestroyStackMode [arg "stack" false] [];
         command UpdateStackMode [arg "stack" false; arg "template" false]
           [flag "capabilities" None capabilities];
         command MfaMode [] [];
         command SetupSinkMode [] [];
         command DestroySinkMode [] [];
         command CreateParametersMode
           [arg "template" false; arg "output" false]
           [ flag "parameter" None kingpin.KStringMap;
             flag "pretty-print" None kingpin.KBool ];
         command SetStackPolicyMode [arg "stack" false; arg "template" false]
           [ flag "block" None kingpin.KBool;
             flag "unblock" None kingpin.KBool;
             flag "disable-stack-termination" None kingpin.KBool;
             flag "enable-stack-termination" None kingpin.KBool ] ] |}.

(** The variables of lines 75-132, read from what the model of kingpin
    bound. *)
Definition bind (st : kingpin.Store) : bound.Vars :=
  let flagOf := kingpin.FlagOf in
  let argOf := kingpin.ArgOf in
  {| bound.quiet := kingpin.getBool st (flagOf "" "quiet");
     bound.yes := kingpin.getBool st (flagOf "" "yes");
     bound.verbosity := kingpin.getString st (flagOf "" "verbosity");
     bound.mfa := kingpin.getBool st (flagOf "" "mfa");
     bound.DurationForMFA := kingpin.getInt64 st (flagOf "" "duration");
     bound.profile := kingpin.getString st (flagOf "" "profile");
     bound.region := kingpin.getString st (flagOf "" "region");
     bound.sandbox := kingpin.getBool st (flagOf "" "sandbox");
     bound.configurationPath := kingpin.getString st (flagOf "" "config");
     bound.showProgress := kingpin.getBool st (flagOf "" "progress");
     bound.onlineValidateTemplate :=
       kingpin.getString st (argOf ValidateMode "template");
     bound.offlineValidateTemplate :=
       kingpin.getString st (argOf OfflineValidateMode "template");
     bound.convertTemplate :=
       kingpin.getString st (argOf ConvertMode "template");
     bound.convertOutputFile :=
       kingpin.getString st (argOf ConvertMode "output");
     bound.convertPrettyPrint :=
       kingpin.getBool st (flagOf ConvertMode "pretty-print");
     bound.createStackName :=
       kingpin.getString st (argOf CreateStackMode "stack");
     bound.createStackTemplate :=
       kingpin.getString st (argOf CreateStackMode "template");
     bound.createStackCapabilities :=
       kingpin.getStrings st (flagOf CreateStackMode "capabilities");
     bound.createStackParams :=
       kingpin.getStringMap st (flagOf CreateStackMode "parameter");
     bound.createStackParametersFile :=
       kingpin.getString st (flagOf CreateStackMode "parameters-file");
     bound.deleteStackName :=
       kingpin.getString st (argOf DestroyStackMode "stack");
     bound.updateStackName :=
       kingpin.getString st (argOf UpdateStackMode "stack");
     bound.updateStackTemplate :=
       kingpin.getString st (argOf UpdateStackMode "template");
     bound.updateStackCapabilities :=
       kingpin.getStrings st (flagOf UpdateStackMode "capabilities");
     bound.createParametersTemplate :=
       kingpin.getString st (argOf CreateParametersMode "template");
     bound.createParametersParamsOutputFile :=
       kingpin.getString st (argOf CreateParametersMode "output");
     bound.createParametersParams :=
       kingpin.getStringMap st (flagOf CreateParametersMode "parameter");
     bound.createParametersPrettyPrint :=
       kingpin.getBool st (flagOf CreateParametersMode "pretty-print");
     bound.setStackPolicyName :=
       kingpin.getString st (argOf SetStackPolicyMode "stack");
     bound.setStackPolicyTemplate :=
       kingpin.getString st (argOf SetStackPolicyMode "template");
     bound.setDefaultBlockingStackPolicy :=
       kingpin.getBool st (flagOf SetStackPolicyMode "block");
     bound.setDefaultUnblockingStackPolicy :=
       kingpin.getBool st (flagOf SetStackPolicyMode "unblock");
     bound.setDisableStackTermination :=
       kingpin.getBool st (flagOf SetStackPolicyMode "disable-stack-termination");
     bound.setEnableStackTermination :=
       kingpin.getBool st (flagOf SetStackPolicyMode "enable-stack-termination")
  |}.

Definition bindResult (r : kingpin.ParseResult kingpin.Store)
  : kingpin.ParseResult bound.Vars :=
  match r with
  | kingpin.Parsed command st => kingpin.Parsed command (bind st)
  | kingpin.ParseError e => kingpin.ParseError e
  | kingpin.Terminated code => kingpin.Terminated code
  end.

(** *** [func ParseCliArguments], lines 71-249 *)

(** How a call of [ParseCliArguments] ends: it returns its two results, or
    the process ends inside the call ([os.Exit]), or the call panics. *)
Inductive Outcome :=
| Return (cliArguments : CliArguments) (err : option string)
| Exit (code : Z)
| Panic.

(** A case of the switch: the value of its expression and its body. *)
Definition Case : Type := string * list (CliArguments -> CliArguments).

(** The assignments of a case body, in order. *)
Definition assign (body : list (CliArguments -> CliArguments))
    (c : CliArguments) : CliArguments :=
  foldl (fun c f => f c) c body.

(** Go's expression switch without default: the cases are tried from top to
    bottom, the body of the first one whose expression equals the tag runs,
    and there is no fall through. *)
Definition switch (tag : string) (cases : list Case) (c : CliArguments)
  : CliArguments :=
  match find (fun k => String.eqb tag k.1) cases with
  | Some k => assign k.2 c
  | None => c
  end.

(** The cases of lines 141-218, in order.  The expression of each case is
    [FullCommand()] of a command without parent, which is its name. *)
Definition cases (b : bound.Vars) : list Case :=
  [ (ValidateMode,                                    (* lines 141-143 *)
     [ setMode (Some ValidateMode);
       setTemplatePath (Some (bound.onlineValidateTemplate b)) ]);
    (OfflineValidateMode,                             (* lines 146-148 *)
     [ setMode (Some OfflineValidateMode);
       setTemplatePath (Some (bound.offlineValidateTemplate b)) ]);
    (ConvertMode,                                     (* lines 151-155 *)
     [ setMode (Some ConvertMode);
       setTemplatePath (Some (bound.convertTemplate b));
       setOutputFilePath (Some (bound.convertOutputFile b));
       setPrettyPrint (Some (bound.convertPrettyPrint b)) ]);
    (ConfigureMode,                                   (* lines 158-159 *)
     [ setMode (Some ConfigureMode) ]);
    (CreateStackMode,                                 (* lines 162-168 *)
     [ setMode (Some CreateStackMode);
       setStack (Some (bound.createStackName b));
       setTemplatePath (Some (bound.createStackTemplate b));
       setCapabilities (Some (bound.createStackCapabilities b));
       setParameters (Some (bound.createStackParams b));
       setParametersFile (Some (bound.createStackParametersFile b)) ]);
    (DestroyStackMode,                                (* lines 171-173 *)
     [ setMode (Some DestroyStackMode);
       setStack (Some (bound.deleteStackName b)) ]);
    (MfaMode,                                         (* lines 176-177 *)
     [ setMode (Some MfaMode) ]);
    (UpdateStackMode,                                 (* lines 180-184 *)
     [ setMode (Some UpdateStackMode);
       setStack (Some (bound.updateStackName b));
       setTemplatePath (Some (bound.updateStackTemplate b));
       setCapabilities (Some (bound.updateStackCapabilities b)) ]);
    (CreateParametersMode,                            (* lines 187-192 *)
     [ setMode (Some CreateParametersMode);
       setTemplatePath (Some (bound.createParametersTemplate b));
       setOutputFilePath (Some (bound.createParametersParamsOutputFile b));
       setParameters (Some (bound.createParametersParams b));
       setPrettyPrint (Some (bound.createParametersPrettyPrint b)) ]);
    (CreateParametersMode,                            (* lines 195-200 *)
     [ setMode (Some CreateParametersMode);
       setTemplatePath (Some (bound.createParametersTemplate b));
       setOutputFilePath (Some (bound.createParametersParamsOutputFile b));
       setParameters (Some (bound.createParametersParams b));
       setPrettyPrint (Some (bound.createParametersPrettyPrint b)) ]);
    (SetStackPolicyMode,                              (* lines 203-210 *)
     [ setMode (Some SetStackPolicyMode);
       setBlock (Some (bound.setDefaultBlockingStackPolicy b));
       setUnblock (Some (bound.setDefaultUnblockingStackPolicy b));
       setStack (Some (bound.setStackPolicyName b));
       setTemplatePath (Some (bound.setStackPolicyTemplate b));
       setDisableStackTermination (Some (bound.setDisableStackTermination b));
       setEnableStackTermination (Some (bound.setEnableStackTermination b)) ]);
    (SetupSinkMode,                                   (* lines 213-214 *)
     [ setMode (Some SetupSinkMode) ]);
    (DestroySinkMode,                                 (* lines 217-218 *)
     [ setMode (Some DestroySinkMode) ]) ].

(** Lines 138-231: the descriptor after the switch and the assignments of
    the shared flags, as the checks of lines 233-248 receive it. *)
Definition populated (command : string) (b : bound.Vars) : CliArguments :=
  otherFlags b (switch command (cases b) zero).

(** The spec's reading of the switch (section 9): the same cases with the
    second [create-parameters] case, the one of lines 195-200, taken out. *)
Definition casesDeduplicated (b : bound.Vars) : list Case :=
  take 9 (cases b) ++ drop 10 (cases b).

(** The three messages of lines 234, 239 and 244. *)
Definition errDurationTooSmall : string :=
  "You should specify value for duration of MFA token greater than zero".
Definition errDurationTooBig : string :=
  "You should specify value for duration of MFA token smaller than 129600 (3 hours)".
Definition errVerbosity : string :=
  "You specified invalid value for --verbosity flag".

Section ParseCliArguments.

(** [app.Parse], of kingpin, on the grammar of lines 72-136. *)
Variable Parse : list string -> kingpin.ParseResult bound.Vars.

(** [logger.IsVerbosityValid]; the [logger] package is not among the
    sources. *)
Variable IsVerbosityValid : string -> bool.

(** Lines 233-248: the checks on the populated descriptor. *)
Definition validate (cliArguments : CliArguments) : Outcome :=
  match DurationForMFA cliArguments with
  | None => Panic                            (* nil dereference *)
  | Some d =>
      if (d <? 0)%Z then Return cliArguments (Some errDurationTooSmall)
      else if (129600 <? d)%Z then Return cliArguments (Some errDurationTooBig)
      else
        match Verbosity cliArguments with
        | None => Panic                      (* nil dereference *)
        | Some v =>
            if negb (String.eqb v "") && negb (IsVerbosityValid v)
            then Return cliArguments (Some errVerbosity)
            else Return cliArguments None
        end
  end.

(** [ParseCliArguments] with the cases of its switch as a parameter. *)
Definition ParseCliArgumentsWith (cases : bound.Vars -> list Case)
    (args : list string) : Outcome :=
  match args with
  | [] => Panic                  (* [args[1:]]: slice bounds out of range *)
  | _ :: args1 =>
      match Parse args1 with
      | kingpin.Terminated code => Exit code   (* help, version, usage *)
      | kingpin.ParseError _ => Exit 1         (* [kingpin.MustParse] *)
      | kingpin.Parsed command b =>
          let cliArguments := switch command (cases b) zero in
          let cliArguments := otherFlags b cliArguments in
          validate cliArguments
      end
  end.

(** [func ParseCliArguments(args []string) (cliArguments CliArguments,
    err error)]. *)
Definition ParseCliArguments : list string -> Outcome :=
  ParseCliArgumentsWith cases.

(** The function with the duplicated case removed. *)
Definition ParseCliArgumentsDeduplicated : list string -> Outcome :=
  ParseCliArgumentsWith casesDeduplicated.

End ParseCliArguments.

(** A behaviour of [app.Parse] that is the one of the model of kingpin
    wherever the model has one. *)
Definition follows_kingpin
    (Parse : list string -> kingpin.ParseResult bound.Vars) : Prop :=
  forall args r, kingpin.Parse app args = Some r -> Parse args = bindResult r.

(** The model of kingpin as a behaviour of [app.Parse].  Where the model has
    no answer this one is arbitrary (it lets the process end with status 2,
    which kingpin never does); nothing is stated from it there. *)
Definition modelParse (args : list string) : kingpin.ParseResult bound.Vars :=
  match kingpin.Parse app args with
  | Some r => bindResult r
  | None => kingpin.Terminated 2
  end.

End cliparser.

(* ===================================================================== *)
(** ** main.go *)
(* ===================================================================== *)

Module main.

Import cliparser.

(** The calls of [main] into the other packages of perun, none of which is
    among the sources. *)
Inductive Call :=
| ValidateAndEstimateCosts      (* onlinevalidator *)
| Convert                       (* converter *)
| Validate                      (* offlinevalidator *)
| NewStack                      (* stack *)
| DestroyStack
| UpdateStack
| SetTerminationProtection
| ApplyStackPolicy
| UpdateSessionToken (profile region : string) (duration : Z)  (* mysession *)
| ConfigureRemoteSink           (* progress *)
| DestroyRemoteSink
| ConfigureParameters           (* parameters *)
| LoggerError (msg : string).   (* context.Logger.Error, line 78 *)

(** [context.Context], as far as [main] reads it. *)
Record Context := {
  CliArguments : cliparser.CliArguments;
  Config : configurator.Configuration
}.

(** The state of the process: the calls made so far (oldest first) and the
    world of the wizard. *)
Record State := {
  calls : list Call;
  wizard : configurator.World
}.

(** How a piece of [main] ends: it goes on with a value, the process exits,
    a nil pointer is dereferenced, or the wizard ran out of fuel. *)
Inductive Result (A : Type) :=
| Value (a : A)
| Exited (code : Z)
| Panicked
| OutOfFuel.
Arguments Value {A} a.
Arguments Exited {A} code.
Arguments Panicked {A}.
Arguments OutOfFuel {A}.

Definition Proc (A : Type) : Type := State -> Result A * State.

Definition ret {A : Type} (a : A) : Proc A := fun s => (Value a, s).

Definition bind {A B : Type} (m : Proc A) (k : A -> Proc B) : Proc B :=
  fun s =>
    match m s with
    | (Value a, s) => k a s
    | (Exited code, s) => (Exited code, s)
    | (Panicked, s) => (Panicked, s)
    | (OutOfFuel, s) => (OutOfFuel, s)
    end.

Notation "x <- m ;; k" := (bind m (fun x => k))
  (at level 100, m at next level, right associativity).
Notation "m ;;; k" := (bind m (fun _ => k))
  (at level 100, right associativity).

(** [os.Exit(code)]. *)
Definition Exit (code : Z) : Proc unit := fun s => (Exited code, s).

(** [*p]. *)
Definition deref {A : Type} (p : option A) : Proc A :=
  match p with
  | Some a => ret a
  | None => fun s => (Panicked, s)
  end.

Definition record (c : Call) : Proc unit :=
  fun s => (Value tt, {| calls := calls s ++ [c]; wizard := wizard s |}).

Section Main.

(** What the collaborators answer: for the two validators the flag they
    return, for the others the error they return ([None] for [nil]). *)
Variable valid : Call -> bool.
Variable failure : Call -> option string.

(** [utilities.CheckFlagAndExit] and [utilities.CheckErrorCodeAndExit]; the
    [utilities] package is not among the sources.  [Some code] stands for
    [os.Exit(code)], [None] for a return to [main]. *)
Variable CheckFlagAndExit : bool -> option Z.
Variable CheckErrorCodeAndExit : option string -> option Z.

(** The operator and the machine of the wizard, and the fuel of its loops. *)
Variable answerInt : nat -> Z.
Variable answerString : nat -> string.
Variable Stat : string -> configurator.StatResult.
Variable GetUserHomeDir : string * option string.
Variable fuel : nat.

Definition exitOn (code : option Z) : Proc unit :=
  match code with
  | Some code => Exit code
  | None => ret tt
  end.

(** [utilities.CheckFlagAndExit(f(&context))]. *)
Definition checkFlag (c : Call) : Proc unit :=
  record c ;;; exitOn (CheckFlagAndExit (valid c)).

(** [utilities.CheckErrorCodeAndExit(f(&context))]. *)
Definition checkError (c : Call) : Proc unit :=
  record c ;;; exitOn (CheckErrorCodeAndExit (failure c)).

(** [configurator.FileName(&context)]. *)
Definition FileName : Proc unit :=
  fun s =>
    match configurator.FileName answerInt answerString Stat GetUserHomeDir
            fuel (wizard s) with
    | Some w => (Value tt, {| calls := calls s; wizard := w |})
    | None => (OutOfFuel, s)
    end.

(** [if *context.CliArguments.Mode == mode { body }]. *)
Definition ifMode (context : Context) (mode : string) (body : Proc unit)
  : Proc unit :=
  m <- deref (Mode (CliArguments context)) ;;
  if String.eqb m mode then body else ret tt.

(** Lines 43-108 of [func main]: the dispatch on the mode. *)
Definition dispatch (context : Context) : Proc unit :=
  let cli := CliArguments context in
  ifMode context ValidateMode (checkFlag ValidateAndEstimateCosts) ;;;
  ifMode context ConvertMode (checkError Convert) ;;;
  ifMode context OfflineValidateMode (checkFlag Validate) ;;;
  ifMode context ConfigureMode (FileName ;;; Exit 0) ;;;
  ifMode context CreateStackMode (checkError NewStack) ;;;
  ifMode context DestroyStackMode (checkError DestroyStack) ;;;
  ifMode context MfaMode
    (let call := UpdateSessionToken
                   (configurator.DefaultProfile (Config context))
                   (configurator.DefaultRegion (Config context))
                   (configurator.DefaultDurationForMFA (Config context)) in
     record call ;;;
     match failure call with
     | None => Exit 0
     | Some e => record (LoggerError e) ;;; Exit 1
     end) ;;;
  ifMode context UpdateStackMode (checkError UpdateStack) ;;;
  ifMode context SetupSinkMode (record ConfigureRemoteSink ;;; Exit 0) ;;;
  ifMode context DestroySinkMode (record DestroyRemoteSink ;;; Exit 0) ;;;
  ifMode context CreateParametersMode (record ConfigureParameters ;;; Exit 0) ;;;
  ifMode context SetStackPolicyMode
    (disable <- deref (DisableStackTermination cli) ;;
     enable <- (if disable then ret true
                else deref (EnableStackTermination cli)) ;;
     if disable || enable
     then checkError SetTerminationProtection
     else checkError ApplyStackPolicy).

(** [func main()] (lines 37-109), given what [context.GetContext] returned:
    the context, or an error. *)
Definition main (got : option Context) : Proc unit :=
  match got with
  | None => Exit 1
  | Some context => dispatch context
  end.

End Main.

End main.

(* ===================================================================== *)
(** * Properties *)
(* ===================================================================== *)

(** ** The configuration wizard *)

Section WizardFacts.

Import configurator.

Variable answerInt : nat -> Z.
Variable answerString : nat -> string.
Variable Stat : string -> StatResult.
Variable GetUserHomeDir : string * option string.

Local Abbreviation setRegions := (configurator.setRegions answerInt).
Local Abbreviation setProfile := (configurator.setProfile answerString).
Local Abbreviation regionLoop := (configurator.regionLoop answerInt).
Local Abbreviation profileLoop := (configurator.profileLoop answerString).
Local Abbreviation chooseRegion := (configurator.chooseRegion answerInt).
Local Abbreviation chooseProfile := (configurator.chooseProfile answerString).
Local Abbreviation createConfig := (configurator.createConfig answerInt answerString).
Local Abbreviation findFile := (configurator.findFile answerInt answerString Stat).
Local Abbreviation FileName :=
  (configurator.FileName answerInt answerString Stat GetUserHomeDir).

Lemma index_in_range (n : Z) :
  (0 <= n < 14)%Z ->
  makeArrayRegions !! Z.to_nat n = Some (index makeArrayRegions n).
Proof.
  intros Hn. unfold index.
  destruct (makeArrayRegions !! Z.to_nat n) eqn:E; [done|].
  apply lookup_ge_None in E. simpl in E. lia.
Qed.

Lemma setRegions_accepted (w : World) :
  (0 <= answerInt (reads w) < 14)%Z ->
  setRegions w =
    ((index makeArrayRegions (answerInt (reads w)), true),
     after2 w 1 (GetInput "Choose region")
       (Always ("Your region is: "
                +:+ index makeArrayRegions (answerInt (reads w))))).
Proof.
  intros [H0 H14]. unfold configurator.setRegions, getInputInt, after2, emit.
  cbn [reads trace].
  apply Z.leb_le in H0. apply Z.ltb_lt in H14. rewrite H0, H14. cbn [andb].
  by rewrite <- app_assoc.
Qed.

Lemma setRegions_rejected (w : World) :
  ~ (0 <= answerInt (reads w) < 14)%Z ->
  setRegions w =
    (("", false),
     after2 w 1 (GetInput "Choose region") (Error "Invalid region")).
Proof.
  intros Hn. unfold configurator.setRegions, getInputInt, after2, emit.
  cbn [reads trace].
  destruct (0 <=? answerInt (reads w))%Z eqn:E0;
    destruct (answerInt (reads w) <? 14)%Z eqn:E14; cbn [andb];
    try (by rewrite <- app_assoc).
  apply Z.leb_le in E0. apply Z.ltb_lt in E14. lia.
Qed.

Lemma setProfile_accepted (w : World) :
  answerString (reads w) <> "" ->
  setProfile w =
    ((answerString (reads w), true),
     after2 w 1 (GetInput "Input name of profile")
       (Always ("Your profile is: " +:+ answerString (reads w)))).
Proof.
  intros Hp. unfold configurator.setProfile, getInputString, after2, emit.
  cbn [reads trace].
  apply String.eqb_neq in Hp. rewrite Hp. cbn [negb].
  by rewrite <- app_assoc.
Qed.

Lemma setProfile_rejected (w : World) :
  answerString (reads w) = "" ->
  setProfile w =
    (("", false),
     after2 w 1 (GetInput "Input name of profile") (Error "Invalid profile")).
Proof.
  intros Hp. unfold configurator.setProfile, getInputString, after2, emit.
  cbn [reads trace]. rewrite Hp. cbn.
  by rewrite <- app_assoc.
Qed.

(** One more turn of the region loop: the rejected answer costs one unit of
    fuel, and the loop goes on from the world after "Try again". *)
Lemma chooseRegion_retry (w : World) (fuel : nat) :
  ~ (0 <= answerInt (reads w) < 14)%Z ->
  chooseRegion 0 w = None /\
  chooseRegion (S fuel) w =
    chooseRegion fuel
      (emit (Always "Try again, invalid region") (setRegions w).2).
Proof.
  intros Hn. unfold configurator.chooseRegion.
  rewrite (setRegions_rejected w Hn). cbn [snd]. split; [done|].
  cbn [configurator.regionLoop snd fst].
  by destruct (setRegions _).
Qed.

Lemma chooseRegion_accept (w : World) (fuel : nat) :
  (0 <= answerInt (reads w) < 14)%Z ->
  chooseRegion fuel w =
    Some (index makeArrayRegions (answerInt (reads w)), (setRegions w).2).
Proof.
  intros Hn. unfold configurator.chooseRegion.
  rewrite (setRegions_accepted w Hn). by destruct fuel.
Qed.

Lemma chooseProfile_retry (w : World) (fuel : nat) :
  answerString (reads w) = "" ->
  chooseProfile 0 w = None /\
  chooseProfile (S fuel) w =
    chooseProfile fuel
      (emit (Always "Try again, invalid profile") (setProfile w).2).
Proof.
  intros Hn. unfold configurator.chooseProfile.
  rewrite (setProfile_rejected w Hn). cbn [snd]. split; [done|].
  cbn [configurator.profileLoop snd fst].
  by destruct (setProfile _).
Qed.

Lemma chooseProfile_accept (w : World) (fuel : nat) :
  answerString (reads w) <> "" ->
  chooseProfile fuel w = Some (answerString (reads w), (setProfile w).2).
Proof.
  intros Hn. unfold configurator.chooseProfile.
  rewrite (setProfile_accepted w Hn). by destruct fuel.
Qed.

Lemma setRegions_reads (w : World) : reads (setRegions w).2 = S (reads w).
Proof.
  unfold configurator.setRegions, getInputInt. cbn [reads].
  by destruct (_ && _).
Qed.

Lemma setProfile_reads (w : World) : reads (setProfile w).2 = S (reads w).
Proof.
  unfold configurator.setProfile, getInputString. cbn [reads].
  by destruct (negb _).
Qed.

(** More fuel does not change what the region loop returns. *)
Lemma regionLoop_fuel_mono (fuel : nat) :
  forall (r : string * bool) (w : World) (x : string * World),
    regionLoop fuel r w = Some x -> regionLoop (S fuel) r w = Some x.
Proof.
  induction fuel as [|fuel IH]; intros [r b] w x;
    cbn [configurator.regionLoop fst snd]; destruct b; try done.
  destruct (setRegions _) as [r' w']. apply IH.
Qed.

Lemma chooseRegion_fuel_mono (fuel fuel' : nat) (w : World)
    (x : string * World) :
  fuel <= fuel' ->
  chooseRegion fuel w = Some x -> chooseRegion fuel' w = Some x.
Proof.
  unfold configurator.chooseRegion. destruct (setRegions w) as [r w1].
  induction 1 as [|fuel' _ IH]; [done|].
  intros H. by apply regionLoop_fuel_mono, IH.
Qed.

(** The region loop, by induction on the number [k] of rejected answers
    that precede the first accepted one. *)
Lemma chooseRegion_first_in_range (k : nat) :
  forall w : World,
    (forall i, i < k -> ~ (0 <= answerInt (reads w + i) < 14)%Z) ->
    (0 <= answerInt (reads w + k) < 14)%Z ->
    exists w',
      reads w' = reads w + S k /\
      forall fuel,
        chooseRegion fuel w =
          if decide (k <= fuel)
          then Some (index makeArrayRegions (answerInt (reads w + k)), w')
          else None.
Proof.
  induction k as [|k IH]; intros w Hbad Hgood.
  - rewrite Nat.add_0_r in Hgood. exists (setRegions w).2. split.
    + rewrite setRegions_reads. lia.
    + intros fuel. rewrite Nat.add_0_r.
      rewrite decide_True by lia. by apply chooseRegion_accept.
  - assert (Hw : ~ (0 <= answerInt (reads w) < 14)%Z).
    { specialize (Hbad 0). rewrite Nat.add_0_r in Hbad. apply Hbad. lia. }
    set (w1 := emit (Always "Try again, invalid region") (setRegions w).2).
    assert (Hr : reads w1 = S (reads w)) by apply setRegions_reads.
    destruct (IH w1) as (w' & Hreads & Hloop).
    + intros i Hi. rewrite Hr.
      replace (S (reads w) + i) with (reads w + S i) by lia.
      apply Hbad. lia.
    + rewrite Hr. by replace (S (reads w) + k) with (reads w + S k) by lia.
    + exists w'. split; [lia|]. intros [|fuel].
      * rewrite decide_False by lia. by apply chooseRegion_retry.
      * destruct (chooseRegion_retry w fuel Hw) as [_ ->]. fold w1.
        rewrite Hloop, Hr.
        replace (S (reads w) + k) with (reads w + S k) by lia.
        destruct (decide (k <= fuel)).
        -- by rewrite decide_True by lia.
        -- by rewrite decide_False by lia.
Qed.

Lemma chooseRegion_diverges (fuel : nat) :
  forall w : World,
    (forall i, ~ (0 <= answerInt (reads w + i) < 14)%Z) ->
    chooseRegion fuel w = None.
Proof.
  induction fuel as [|fuel IH]; intros w Hbad.
  - apply (chooseRegion_retry w 0). specialize (Hbad 0).
    by rewrite Nat.add_0_r in Hbad.
  - assert (Hw : ~ (0 <= answerInt (reads w) < 14)%Z).
    { specialize (Hbad 0). by rewrite Nat.add_0_r in Hbad. }
    destruct (chooseRegion_retry w fuel Hw) as [_ ->].
    apply IH. intros i. cbn [emit reads]. rewrite setRegions_reads.
    replace (S (reads w) + i) with (reads w + S i) by lia. apply Hbad.
Qed.

(** The profile loop, in the same way. *)
Lemma chooseProfile_first_non_empty (j : nat) :
  forall w : World,
    (forall i, i < j -> answerString (reads w + i) = "") ->
    answerString (reads w + j) <> "" ->
    exists w',
      reads w' = reads w + S j /\
      forall fuel,
        chooseProfile fuel w =
          if decide (j <= fuel)
          then Some (answerString (reads w + j), w')
          else None.
Proof.
  induction j as [|j IH]; intros w Hbad Hgood.
  - rewrite Nat.add_0_r in Hgood. exists (setProfile w).2. split.
    + rewrite setProfile_reads. lia.
    + intros fuel. rewrite Nat.add_0_r.
      rewrite decide_True by lia. by apply chooseProfile_accept.
  - assert (Hw : answerString (reads w) = "").
    { specialize (Hbad 0). rewrite Nat.add_0_r in Hbad. apply Hbad. lia. }
    set (w1 := emit (Always "Try again, invalid profile") (setProfile w).2).
    assert (Hr : reads w1 = S (reads w)) by apply setProfile_reads.
    destruct (IH w1) as (w' & Hreads & Hloop).
    + intros i Hi. rewrite Hr.
      replace (S (reads w) + i) with (reads w + S i) by lia.
      apply Hbad. lia.
    + rewrite Hr. by replace (S (reads w) + j) with (reads w + S j) by lia.
    + exists w'. split; [lia|]. intros [|fuel].
      * rewrite decide_False by lia. by apply chooseProfile_retry.
      * destruct (chooseProfile_retry w fuel Hw) as [_ ->]. fold w1.
        rewrite Hloop, Hr.
        replace (S (reads w) + j) with (reads w + S j) by lia.
        destruct (decide (j <= fuel)).
        -- by rewrite decide_True by lia.
        -- by rewrite decide_False by lia.
Qed.

(** C4.  [setRegions] accepts the integer [n] it reads iff
    [0 <= n < len(catalog)], the catalog having 14 entries; an accepted [n]
    yields the catalog entry at 0-based index [n]; a rejected [n] yields the
    error line "Invalid region" and the failure flag, on which the loop of
    [createConfig] prompts again. *)
Theorem setRegions_accepts_iff_in_catalog (w : World) :
  let n := answerInt (reads w) in
  let len := Z.of_nat (length makeArrayRegions) in
  len = 14%Z /\
  ((setRegions w).1.2 = true <-> (0 <= n < len)%Z) /\
  ((0 <= n < len)%Z ->
     makeArrayRegions !! Z.to_nat n = Some (setRegions w).1.1) /\
  (~ (0 <= n < len)%Z ->
     setRegions w =
       (("", false),
        after2 w 1 (GetInput "Choose region") (Error "Invalid region")) /\
     forall fuel,
       chooseRegion (S fuel) w =
         chooseRegion fuel
           (emit (Always "Try again, invalid region") (setRegions w).2)).
Proof.
  cbv zeta. change (Z.of_nat (length makeArrayRegions)) with 14%Z.
  split; [done|]. split; [|split].
  - destruct (decide (0 <= answerInt (reads w) < 14)%Z) as [Hn|Hn].
    + by rewrite (setRegions_accepted w Hn).
    + by rewrite (setRegions_rejected w Hn).
  - intros Hn. rewrite (setRegions_accepted w Hn). cbn [fst].
    by apply index_in_range.
  - intros Hn. split; [by apply setRegions_rejected|].
    intros fuel. by apply chooseRegion_retry.
Qed.

(** C5.  When a file is found at the target path, [findFile] says so and
    returns: no answer is consumed, so neither the region nor the profile is
    asked for, no record is built and [SaveToFile] is not called.  For
    [FileName], whose target path is the directory and the file name the
    operator gave, the only prompts are those two. *)
Theorem wizard_aborts_on_existing_file
    (fuel : nat) (path : string) (w : World) :
  Stat path = StatFound ->
  findFile fuel path w =
    Some (after2 w 0 (Always ("File will be created in " +:+ path))
            (Always "File already exists in this path")) /\
  (answerString (reads w) +:+ "/" +:+ answerString (S (reads w)) = path ->
   FileName fuel w =
     Some {| reads := 2 + reads w;
             trace :=
               trace w
               ++ match GetUserHomeDir.2 with
                  | Some e => [Error e]
                  | None => []
                  end
               ++ [ Always ("Configure file could be in " +:+ nl +:+ "  "
                            +:+ (GetUserHomeDir.1 +:+ "/.config/perun")
                            +:+ nl +:+ "  /etc/perun");
                    GetInput "Your path ";
                    GetInput "Filename ";
                    Always ("File will be created in " +:+ path);
                    Always "File already exists in this path" ] |}).
Proof.
  intros Hstat. split.
  - unfold configurator.findFile, after2, emit. cbn [reads trace].
    rewrite Hstat. cbn [IsNotExist]. by rewrite <- app_assoc.
  - intros Hpath. unfold configurator.FileName.
    destruct GetUserHomeDir as [homePath [e|]];
      unfold getInputString, configurator.findFile, emit;
      cbn [reads trace fst snd]; rewrite Hpath, Hstat; cbn [IsNotExist];
      do 2 f_equal; rewrite <- ?app_assoc; reflexivity.
Qed.

(** C6.  When the answer at offset [k] is the first region index in range
    and, after it, the answer at offset [j] is the first non-empty profile,
    [createConfig] returns (given fuel for the [k] and [j] retries) the
    record with that region and that profile, MFA duration 3600, MFA
    decision false, verbosity "INFO" and the whole of
    [resourceSpecificationURL]. *)
Theorem createConfig_record (w : World) (k j : nat) :
  (forall i, i < k -> ~ (0 <= answerInt (reads w + i) < 14)%Z) ->
  (0 <= answerInt (reads w + k) < 14)%Z ->
  (forall i, i < j -> answerString (reads w + S k + i) = "") ->
  answerString (reads w + S k + j) <> "" ->
  exists w',
    reads w' = reads w + S k + S j /\
    forall fuel, k <= fuel -> j <= fuel ->
      createConfig fuel w =
        Some ({| DefaultProfile := answerString (reads w + S k + j);
                 DefaultRegion :=
                   index makeArrayRegions (answerInt (reads w + k));
                 SpecificationURL := resourceSpecificationURL;
                 DefaultDecisionForMFA := false;
                 DefaultDurationForMFA := 3600;
                 DefaultVerbosity := "INFO" |}, w').
Proof.
  intros Hk Hregion Hj Hprofile.
  destruct (chooseRegion_first_in_range k w Hk Hregion) as (w1 & Hr1 & Hloop1).
  rewrite <- Hr1 in Hj, Hprofile.
  destruct (chooseProfile_first_non_empty j w1 Hj Hprofile)
    as (w2 & Hr2 & Hloop2).
  exists w2. split; [lia|]. intros fuel Hfk Hfj.
  unfold configurator.createConfig.
  rewrite Hloop1, decide_True by done.
  rewrite Hloop2, decide_True by done.
  by rewrite Hr1.
Qed.

(** C7.  If the answers contain an index in range, the first one at offset
    [k], the region loop ends after [k] retries with the catalog entry of
    that index; if no answer is in range, no amount of fuel lets the loop,
    or [createConfig], return. *)
Theorem region_loop_terminates_iff_some_in_range (w : World) :
  (forall k,
     (forall i, i < k -> ~ (0 <= answerInt (reads w + i) < 14)%Z) ->
     (0 <= answerInt (reads w + k) < 14)%Z ->
     exists region w',
       makeArrayRegions !! Z.to_nat (answerInt (reads w + k)) = Some region /\
       reads w' = reads w + S k /\
       forall fuel,
         chooseRegion fuel w =
           if decide (k <= fuel) then Some (region, w') else None) /\
  ((forall i, ~ (0 <= answerInt (reads w + i) < 14)%Z) ->
   forall fuel, chooseRegion fuel w = None /\ createConfig fuel w = None).
Proof.
  split.
  - intros k Hk Hregion.
    destruct (chooseRegion_first_in_range k w Hk Hregion) as (w' & Hr & Hloop).
    exists (index makeArrayRegions (answerInt (reads w + k))), w'.
    split; [by apply index_in_range|]. by split.
  - intros Hbad fuel.
    assert (H : chooseRegion fuel w = None) by by apply chooseRegion_diverges.
    split; [done|]. unfold configurator.createConfig. by rewrite H.
Qed.

End WizardFacts.

Section WizardExamples.

Import configurator.

(** [showRegions] prints the header and one line per catalog entry, the
    index written by [strconv.Itoa]. *)
Example showRegions_lines :
  trace (showRegions w0) !! 0 = Some (Always "Regions:") /\
  trace (showRegions w0) !! 6 = Some (Always "Number 5 region ca-central-1") /\
  trace (showRegions w0) !! 14 = Some (Always "Number 13 region sa-east-1") /\
  length (trace (showRegions w0)) = 15.
Proof. by vm_compute. Qed.

(** The sample session on a free path: three prompts for the region, two
    for the profile, and the record is handed to [SaveToFile]. *)
Example findFile_sample_session :
  exists w,
    findFile ints strs (fun _ => StatNotExist) 2 "/etc/perun/main.yaml" w0
      = Some w /\
    reads w = 5 /\
    last (trace w) =
      Some (SaveToFile
              {| DefaultProfile := "dev";
                 DefaultRegion := "ca-central-1";
                 SpecificationURL := resourceSpecificationURL;
                 DefaultDecisionForMFA := false;
                 DefaultDurationForMFA := 3600;
                 DefaultVerbosity := "INFO" |}
              "/etc/perun/main.yaml").
Proof. eexists. split; [by vm_compute|]. split; reflexivity. Qed.


Lemma wizard_aborts_on_existing_file_witness :
  findFile ints strs (fun _ => StatFound) 0 "/etc/perun/main.yaml" w0 =
    Some {| reads := 0;
            trace := [ Always "File will be created in /etc/perun/main.yaml";
                       Always "File already exists in this path" ] |}.
Proof.
  exact (proj1 (wizard_aborts_on_existing_file ints strs (fun _ => StatFound)
                  ("/root", None) 0 "/etc/perun/main.yaml" w0 eq_refl)).
Defined.

Lemma createConfig_record_witness :
  exists w',
    reads w' = 5 /\
    forall fuel, 2 <= fuel -> 1 <= fuel ->
      createConfig ints strs fuel w0 =
        Some ({| DefaultProfile := "dev";
                 DefaultRegion := "ca-central-1";
                 SpecificationURL := resourceSpecificationURL;
                 DefaultDecisionForMFA := false;
                 DefaultDurationForMFA := 3600;
                 DefaultVerbosity := "INFO" |}, w').
Proof.
  apply (createConfig_record ints strs w0 2 1).
  - intros [|[|i]] Hi; unfold ints; simpl; lia.
  - unfold ints; simpl; lia.
  - intros [|i] Hi; [reflexivity | lia].
  - discriminate.
Defined.

Lemma region_loop_terminates_iff_some_in_range_witness :
  (exists w',
     forall fuel,
       chooseRegion ints fuel w0 =
         if decide (2 <= fuel) then Some ("ca-central-1", w') else None) /\
  (forall fuel,
     chooseRegion (fun _ => 14%Z) fuel w0 = None /\
     createConfig (fun _ => 14%Z) strs fuel w0 = None).
Proof.
  split.
  - destruct (proj1 (region_loop_terminates_iff_some_in_range ints strs w0) 2)
      as (region & w' & Hregion & _ & Hloop).
    + intros [|[|i]] Hi; unfold ints; simpl; lia.
    + unfold ints; simpl; lia.
    + vm_compute in Hregion. injection Hregion as <-. by exists w'.
  - apply (proj2 (region_loop_terminates_iff_some_in_range
                    (fun _ => 14%Z) strs w0)).
    intros i. lia.
Defined.

End WizardExamples.

Section Catalog.

Import configurator.

Lemma setRegions_selects_from_catalog (answerInt : nat -> Z) (w : World) :
  (setRegions answerInt w).1.2 = true ->
  (setRegions answerInt w).1.1 ∈ makeArrayRegions.
Proof.
  destruct (decide (0 <= answerInt (reads w) < 14)%Z) as [Hn|Hn].
  - rewrite (setRegions_accepted _ w Hn). cbn [fst snd]. intros _.
    apply list_elem_of_lookup. eexists. by apply index_in_range.
  - by rewrite (setRegions_rejected _ w Hn).
Qed.

Lemma regionLoop_selects_from_catalog (answerInt : nat -> Z) (fuel : nat) :
  forall r w region w',
    (r.2 = true -> r.1 ∈ makeArrayRegions) ->
    regionLoop answerInt fuel r w = Some (region, w') ->
    region ∈ makeArrayRegions.
Proof.
  induction fuel as [|fuel IH]; intros [r b] w region w' Hr;
    cbn [regionLoop fst snd]; destruct b; try discriminate;
    try (intros [= <- <-]; by apply Hr).
  destruct (setRegions answerInt _) as [r' w1] eqn:E.
  apply IH. intros Hb.
  pose proof (setRegions_selects_from_catalog answerInt
                (emit (Always "Try again, invalid region") w)) as H.
  rewrite E in H. by apply H.
Qed.

(** C10.  The catalog has 14 entries; "ca-central-1" stands at the indices 4
    and 5, so the entries are not pairwise distinct; "eu-central-1" is a key
    of [resourceSpecificationURL] and stands at no index of the catalog, so
    the region selection never returns it. *)
Theorem catalog_duplicate_and_unreachable_key :
  length makeArrayRegions = 14 /\
  makeArrayRegions !! 4 = Some "ca-central-1" /\
  makeArrayRegions !! 5 = Some "ca-central-1" /\
  ~ NoDup makeArrayRegions /\
  resourceSpecificationURL !! "eu-central-1"
    = Some "https://d1mta8qj7i28i2.cloudfront.net" /\
  (forall i, makeArrayRegions !! i <> Some "eu-central-1") /\
  (forall answerInt fuel w,
     (setRegions answerInt w).1 <> ("eu-central-1", true) /\
     forall region w',
       chooseRegion answerInt fuel w = Some (region, w') ->
       region <> "eu-central-1").
Proof.
  assert (Hnot : "eu-central-1" ∉ makeArrayRegions).
  { unfold makeArrayRegions. intros H.
    repeat (apply elem_of_cons in H as [H|H]; [discriminate H|]).
    by apply elem_of_nil in H. }
  split; [done|]. split; [done|]. split; [done|]. split; [|split; [|split]].
  - intros Hnodup.
    pose proof (proj1 (NoDup_alt makeArrayRegions) Hnodup 4 5 "ca-central-1"
                  eq_refl eq_refl).
    discriminate.
  - by vm_compute.
  - intros i Hi. apply Hnot. apply list_elem_of_lookup. by exists i.
  - intros answerInt fuel w. split.
    + intros Heq.
      pose proof (setRegions_selects_from_catalog answerInt w) as H.
      rewrite Heq in H. by apply Hnot, H.
    + intros region w' Hsel ->. apply Hnot.
      unfold chooseRegion in Hsel.
      destruct (setRegions answerInt w) as [r w1] eqn:E.
      eapply regionLoop_selects_from_catalog; [|exact Hsel].
      pose proof (setRegions_selects_from_catalog answerInt w) as H.
      by rewrite E in H.
Qed.

End Catalog.

(** ** The argument parser *)

Section ParserFacts.

Import cliparser.

Variable Parse : list string -> kingpin.ParseResult bound.Vars.
Variable IsVerbosityValid : string -> bool.

Local Abbreviation ParseCliArguments :=
  (cliparser.ParseCliArguments Parse IsVerbosityValid).
Local Abbreviation ParseCliArgumentsDeduplicated :=
  (cliparser.ParseCliArgumentsDeduplicated Parse IsVerbosityValid).
Local Abbreviation validate := (cliparser.validate IsVerbosityValid).

(** Case analysis on the tag of the switch, one case after the other. *)
Ltac switch_cases command :=
  cbv [switch casesDeduplicated cases firstn skipn Datatypes.app find fst snd];
  repeat (destruct (String.eqb command _); [try reflexivity|]);
  try reflexivity.

Lemma switch_deduplicated (command : string) (b : bound.Vars) (c : CliArguments) :
  switch command (cases b) c = switch command (casesDeduplicated b) c.
Proof. switch_cases command. Qed.

Lemma ParseCliArguments_parsed (prog : string) (args : list string)
    (command : string) (b : bound.Vars) :
  Parse args = kingpin.Parsed command b ->
  ParseCliArguments (prog :: args) = validate (populated command b).
Proof.
  intros H. unfold cliparser.ParseCliArguments, ParseCliArgumentsWith.
  by rewrite H.
Qed.

Lemma populated_shared (command : string) (b : bound.Vars) :
  DurationForMFA (populated command b) = Some (bound.DurationForMFA b) /\
  Verbosity (populated command b) = Some (bound.verbosity b).
Proof. done. Qed.

(** [validate] returns the descriptor it was given. *)
Lemma validate_returns (c c' : CliArguments) (err : option string) :
  validate c = Return c' err -> c' = c.
Proof.
  unfold cliparser.validate. intros H.
  repeat case_match; congruence.
Qed.

(** C9.  The case of lines 195-200 has the expression and the body of the
    case of lines 187-192 before it, so it never runs: for every argument
    list [ParseCliArguments] returns what the function without that case
    returns. *)
Theorem duplicate_case_unreachable :
  (forall b, cases b !! 9 = cases b !! 8 /\
             length (casesDeduplicated b) + 1 = length (cases b)) /\
  forall args : list string,
    ParseCliArguments args = ParseCliArgumentsDeduplicated args.
Proof.
  split; [done|]. intros [|prog args]; [done|].
  unfold cliparser.ParseCliArguments,
    cliparser.ParseCliArgumentsDeduplicated, ParseCliArgumentsWith.
  destruct (Parse args) as [command b| |]; [|done..].
  by rewrite switch_deduplicated.
Qed.

(** C2.  With a program name in front, the argument list
    [create-stack mystack template.json --capabilities CAPABILITY_IAM] is
    parsed without error into a descriptor with mode "create-stack", stack
    "mystack", template path "template.json" and capabilities
    ["CAPABILITY_IAM"], whatever [app.Parse] does outside the model of
    kingpin. *)
Theorem create_stack_end_to_end (prog : string) :
  follows_kingpin Parse ->
  exists c,
    ParseCliArguments
      [ prog; "create-stack"; "mystack"; "template.json";
        "--capabilities"; "CAPABILITY_IAM" ] = Return c None /\
    Mode c = Some "create-stack" /\
    Stack c = Some "mystack" /\
    TemplatePath c = Some "template.json" /\
    Capabilities c = Some ["CAPABILITY_IAM"].
Proof.
  intros Hfollows.
  pose proof (Hfollows
    ["create-stack"; "mystack"; "template.json";
     "--capabilities"; "CAPABILITY_IAM"] _ eq_refl) as H.
  vm_compute in H.
  eexists. split.
  - rewrite (ParseCliArguments_parsed _ _ _ _ H). reflexivity.
  - vm_compute. done.
Qed.

(** The two duration checks of lines 233-241 away from 0: a duration below
    0 is refused with the message of the lower bound, a duration above
    129600 with that of the upper bound, and the two messages differ; a
    duration from 1 to 129600 passes both checks, and the call then succeeds
    unless the verbosity is given and invalid. *)
Lemma duration_checks (prog : string) (args : list string)
    (command : string) (b : bound.Vars) :
  Parse args = kingpin.Parsed command b ->
  let d := bound.DurationForMFA b in
  let v := bound.verbosity b in
  let c := populated command b in
  DurationForMFA c = Some d /\
  ((d < 0)%Z ->
     ParseCliArguments (prog :: args) = Return c (Some errDurationTooSmall)) /\
  ((129600 < d)%Z ->
     ParseCliArguments (prog :: args) = Return c (Some errDurationTooBig)) /\
  ((1 <= d <= 129600)%Z ->
     ParseCliArguments (prog :: args) =
       Return c (if negb (String.eqb v "") && negb (IsVerbosityValid v)
                 then Some errVerbosity else None)) /\
  errDurationTooSmall <> errDurationTooBig.
Proof.
  intros H. cbv zeta. rewrite (ParseCliArguments_parsed prog _ _ _ H).
  unfold cliparser.validate.
  destruct (populated_shared command b) as [-> ->].
  split; [done|].
  destruct (bound.DurationForMFA b <? 0)%Z eqn:E0;
    [apply Z.ltb_lt in E0 | apply Z.ltb_ge in E0];
    (destruct (129600 <? bound.DurationForMFA b)%Z eqn:E1;
     [apply Z.ltb_lt in E1 | apply Z.ltb_ge in E1]);
    try lia.
  - repeat split; try done; lia.
  - repeat split; try done; lia.
  - split; [lia|]. split; [lia|]. split; [|done].
    intros _. by destruct (negb _ && negb _).
Qed.

(** C8, as the code has it.  When [app.Parse] reports an error
    (unknown mode, missing required positional, malformed flag value, value
    outside an enumeration of the grammar), [kingpin.MustParse] ends the
    process with status 1 inside [ParseCliArguments]: nothing is returned.
    When [app.Parse] succeeds the call returns, and a duration out of range
    or an invalid verbosity is returned as one of the three messages. *)
Theorem grammar_errors_exit_validation_errors_return
    (prog : string) (args : list string) :
  (forall e, Parse args = kingpin.ParseError e ->
             ParseCliArguments (prog :: args) = Exit 1) /\
  (forall command b,
     Parse args = kingpin.Parsed command b ->
     let d := bound.DurationForMFA b in
     let v := bound.verbosity b in
     exists err,
       ParseCliArguments (prog :: args) = Return (populated command b) err /\
       ((d < 0)%Z -> err = Some errDurationTooSmall) /\
       ((129600 < d)%Z -> err = Some errDurationTooBig) /\
       (v <> "" /\ IsVerbosityValid v = false ->
        err ∈ [ Some errDurationTooSmall; Some errDurationTooBig;
                Some errVerbosity ])).
Proof.
  split.
  - intros e H. unfold cliparser.ParseCliArguments, ParseCliArgumentsWith.
    by rewrite H.
  - intros command b H. cbv zeta.
    rewrite (ParseCliArguments_parsed prog _ _ _ H).
    unfold cliparser.validate.
    destruct (populated_shared command b) as [-> ->].
    destruct (bound.DurationForMFA b <? 0)%Z eqn:E0;
      [apply Z.ltb_lt in E0 | apply Z.ltb_ge in E0];
      (destruct (129600 <? bound.DurationForMFA b)%Z eqn:E1;
       [apply Z.ltb_lt in E1 | apply Z.ltb_ge in E1]);
      try lia.
    + eexists. split; [reflexivity|]. repeat split; try lia; try done.
      intros _. set_solver.
    + eexists. split; [reflexivity|]. repeat split; try lia; try done.
      intros _. set_solver.
    + destruct (negb _ && negb _) eqn:Ev;
        (eexists; split; [reflexivity|]); repeat split; try lia.
      * intros _. set_solver.
      * intros [Hv Hinvalid]. apply String.eqb_neq in Hv.
        by rewrite Hv, Hinvalid in Ev.
Qed.

End ParserFacts.

Section ParserExamples.

Import cliparser.

Lemma modelParse_follows_kingpin : follows_kingpin modelParse.
Proof. intros args r H. unfold modelParse. by rewrite H. Qed.

(** The model of kingpin on some command lines: short flags in a group and
    with an attached value, [--no-] on a boolean flag, repeated
    [--parameter], a flag that its command does not declare, help. *)
Example kingpin_short_flags :
  exists c,
    ParseCliArguments modelParse logger.IsVerbosityValid
      ["perun"; "-qyd60"; "validate"; "template.yaml"; "-v"; "DEBUG"]
      = Return c None /\
    Quiet c = Some true /\ Yes c = Some true /\
    DurationForMFA c = Some 60%Z /\ Verbosity c = Some "DEBUG" /\
    TemplatePath c = Some "template.yaml" /\ Stack c = None.
Proof. eexists. split; [by vm_compute|]. by vm_compute. Qed.

Example kingpin_parameters :
  exists c,
    ParseCliArguments modelParse logger.IsVerbosityValid
      ["perun"; "create-parameters"; "template.yaml"; "--no-pretty-print";
       "--parameter"; "Env=dev"; "--parameter=Size=2"; "--"; "-out.json"]
      = Return c None /\
    Parameters c = Some {[ "Env" := "dev"; "Size" := "2" ]} /\
    OutputFilePath c = Some "-out.json" /\ PrettyPrint c = Some false.
Proof. eexists. split; [by vm_compute|]. by vm_compute. Qed.

Example kingpin_errors_and_help :
  kingpin.Parse app ["validate"; "--capabilities"; "CAPABILITY_IAM"]
    = Some (kingpin.ParseError (kingpin.ErrUnknownLongFlag "capabilities")) /\
  kingpin.Parse app ["configure"; "now"]
    = Some (kingpin.ParseError (kingpin.ErrUnexpected "now")) /\
  kingpin.Parse app ["validate"; "--duration"; "-1"]
    = Some (kingpin.ParseError (kingpin.ErrExpectedArgument "duration")) /\
  kingpin.Parse app ["create-stack"; "--help"] = Some (kingpin.Terminated 0) /\
  kingpin.Parse app ["--version"] = Some (kingpin.Terminated 0) /\
  kingpin.Parse app ["help"; "convert"] = Some (kingpin.Terminated 0) /\
  kingpin.Parse app ["validate"; "@arguments"] = None.
Proof. by vm_compute. Qed.

(** [args[1:]] needs the program name: on the empty list the call panics. *)
Example ParseCliArguments_without_program_name :
  ParseCliArguments modelParse logger.IsVerbosityValid [] = Panic.
Proof. reflexivity. Qed.

Lemma create_stack_end_to_end_witness :
  exists c,
    ParseCliArguments modelParse logger.IsVerbosityValid
      [ "perun"; "create-stack"; "mystack"; "template.json";
        "--capabilities"; "CAPABILITY_IAM" ] = Return c None /\
    Mode c = Some "create-stack" /\
    Stack c = Some "mystack" /\
    TemplatePath c = Some "template.json" /\
    Capabilities c = Some ["CAPABILITY_IAM"].
Proof.
  exact (create_stack_end_to_end modelParse logger.IsVerbosityValid "perun"
           modelParse_follows_kingpin).
Defined.

(** C1.  The code where it departs from the claim.  The flag is documented
    as "seconds value from range [1, 129600]" (line 79) and the message of
    line 234 asks for a value "greater than zero", yet the guard of line 233
    is [< 0]: a duration given as 0, as [--duration=0] or as [-d 0], is
    parsed without error, where the claim has it refused by the lower bound.
    The guard does refuse -1, with that message. *)
Theorem explicit_duration_zero_is_accepted :
  let run := ParseCliArguments modelParse logger.IsVerbosityValid in
  (exists c,
     run ["perun"; "validate"; "template.yaml"; "--duration=0"]
       = Return c None /\
     DurationForMFA c = Some 0%Z) /\
  (exists c,
     run ["perun"; "validate"; "template.yaml"; "-d"; "0"] = Return c None /\
     DurationForMFA c = Some 0%Z) /\
  (exists c,
     run ["perun"; "validate"; "template.yaml"; "--duration=-1"]
       = Return c (Some errDurationTooSmall) /\
     DurationForMFA c = Some (-1)%Z) /\
  ~ (1 <= 0 <= 129600)%Z.
Proof.
  cbv zeta.
  split; [|split; [|split]];
    [eexists; split; vm_compute; reflexivity.. | lia].
Qed.

(** A [--duration] that is left out reads as 0 as well, and has to pass:
    the parser cannot tell it from one given as 0. *)
Example omitted_duration_reads_as_zero :
  exists c,
    ParseCliArguments modelParse logger.IsVerbosityValid
      ["perun"; "validate"; "template.yaml"] = Return c None /\
    DurationForMFA c = Some 0%Z.
Proof. eexists. split; vm_compute; reflexivity. Qed.

(** The duration checks on two command lines: one above the upper bound,
    one within the bounds with a verbosity that is refused. *)
Example duration_checks_on_command_lines :
  let run := ParseCliArguments modelParse logger.IsVerbosityValid in
  (exists c,
     run ["perun"; "validate"; "template.yaml"; "--duration=129601"]
       = Return c (Some errDurationTooBig)) /\
  (exists c,
     run ["perun"; "validate"; "template.yaml"; "--duration=3600";
          "--verbosity=debug"] = Return c (Some errVerbosity)).
Proof. cbv zeta. split; eexists; vm_compute; reflexivity. Qed.

(** The claim C8 fails on an unknown mode, on a missing required
    positional, on a malformed flag value and on a capability outside the
    enumeration: kingpin reports an error, and the call ends the process
    with status 1 instead of returning. *)
Lemma grammar_errors_end_the_process :
  let run := ParseCliArguments modelParse logger.IsVerbosityValid in
  kingpin.Parse app ["frobnicate"]
    = Some (kingpin.ParseError (kingpin.ErrExpectedCommand "frobnicate")) /\
  run ["perun"; "frobnicate"] = Exit 1 /\
  kingpin.Parse app ["create-stack"; "mystack"]
    = Some (kingpin.ParseError (kingpin.ErrRequiredArgument "template")) /\
  run ["perun"; "create-stack"; "mystack"] = Exit 1 /\
  kingpin.Parse app ["validate"; "template.yaml"; "--duration"; "ten"]
    = Some (kingpin.ParseError (kingpin.ErrInt64Value "ten")) /\
  run ["perun"; "validate"; "template.yaml"; "--duration"; "ten"] = Exit 1 /\
  kingpin.Parse app
    ["create-stack"; "mystack"; "template.json"; "--capabilities"; "ADMIN"]
    = Some (kingpin.ParseError (kingpin.ErrEnumValue "ADMIN")) /\
  run ["perun"; "create-stack"; "mystack"; "template.json";
       "--capabilities"; "ADMIN"] = Exit 1 /\
  (forall c err, run ["perun"; "frobnicate"] <> Return c err).
Proof.
  cbv zeta. repeat split; try (vm_compute; reflexivity).
  intros c err. vm_compute. discriminate.
Qed.

Lemma grammar_errors_exit_validation_errors_return_witness :
  ParseCliArguments modelParse logger.IsVerbosityValid
    ["perun"; "frobnicate"] = Exit 1.
Proof.
  apply (proj1 (grammar_errors_exit_validation_errors_return
                  modelParse logger.IsVerbosityValid "perun" ["frobnicate"])
           (kingpin.ErrExpectedCommand "frobnicate")).
  vm_compute. reflexivity.
Defined.

End ParserExamples.

(** ** The mode dispatcher *)

Section MainFacts.

Import cliparser main.

Variable valid : Call -> bool.
Variable failure : Call -> option string.
Variable CheckFlagAndExit : bool -> option Z.
Variable CheckErrorCodeAndExit : option string -> option Z.
Variable answerInt : nat -> Z.
Variable answerString : nat -> string.
Variable Stat : string -> configurator.StatResult.
Variable GetUserHomeDir : string * option string.
Variable fuel : nat.

Local Abbreviation dispatch :=
  (main.dispatch valid failure CheckFlagAndExit CheckErrorCodeAndExit
     answerInt answerString Stat GetUserHomeDir fuel).

(** The last [if] of [main] on a descriptor in set-stack-policy mode: none
    of the earlier ones runs, and one call is made. *)
Lemma dispatch_set_stack_policy (context : Context) (s : State)
    (disable enable : bool) :
  Mode (CliArguments context) = Some SetStackPolicyMode ->
  DisableStackTermination (CliArguments context) = Some disable ->
  EnableStackTermination (CliArguments context) = Some enable ->
  calls (dispatch context s).2 =
    calls s ++ [ if disable || enable
                 then SetTerminationProtection else ApplyStackPolicy ] /\
  wizard (dispatch context s).2 = wizard s.
Proof.
  intros Hmode Hdisable Henable.
  unfold main.dispatch, ifMode, bind, deref.
  rewrite Hmode, Hdisable, Henable.
  destruct disable, enable; cbn;
    unfold exitOn; by destruct (CheckErrorCodeAndExit _).
Qed.

(** A descriptor that the parser returns in set-stack-policy mode carries
    both termination flags. *)
Lemma set_stack_policy_flags
    (Parse : list string -> kingpin.ParseResult bound.Vars)
    (IsVerbosityValid : string -> bool)
    (args : list string) (c : cliparser.CliArguments) (err : option string) :
  ParseCliArguments Parse IsVerbosityValid args = Return c err ->
  Mode c = Some SetStackPolicyMode ->
  is_Some (DisableStackTermination c) /\ is_Some (EnableStackTermination c).
Proof.
  unfold ParseCliArguments, ParseCliArgumentsWith.
  destruct args as [|prog args]; [done|].
  destruct (Parse args) as [command b| |]; [|done..].
  intros Hret%validate_returns. subst c.
  cbv [switch cases find fst snd].
  repeat (destruct (String.eqb command _);
          [by (intros [=]) || (intros _; by split) |]).
  by intros [=].
Qed.

(** C3.  On a descriptor that the parser returned in set-stack-policy mode,
    [main] makes one call: [stack.SetTerminationProtection] when
    [--disable-stack-termination] or [--enable-stack-termination] is set,
    [stack.ApplyStackPolicy] when neither is. *)
Theorem set_stack_policy_dispatch
    (Parse : list string -> kingpin.ParseResult bound.Vars)
    (IsVerbosityValid : string -> bool)
    (args : list string) (c : cliparser.CliArguments)
    (config : configurator.Configuration) (s : State) :
  ParseCliArguments Parse IsVerbosityValid args = Return c None ->
  Mode c = Some SetStackPolicyMode ->
  exists disable enable op,
    DisableStackTermination c = Some disable /\
    EnableStackTermination c = Some enable /\
    calls (dispatch {| CliArguments := c; Config := config |} s).2
      = calls s ++ [op] /\
    (op = SetTerminationProtection <-> disable = true \/ enable = true) /\
    (op = ApplyStackPolicy <-> disable = false /\ enable = false).
Proof.
  intros Hparse Hmode.
  destruct (set_stack_policy_flags _ _ _ _ _ Hparse Hmode)
    as [[disable Hd] [enable He]].
  exists disable, enable,
    (if disable || enable then SetTerminationProtection else ApplyStackPolicy).
  split; [done|]. split; [done|]. split.
  - by apply dispatch_set_stack_policy.
  - destruct disable, enable; cbn; intuition congruence.
Qed.

End MainFacts.

Section MainExamples.

Import cliparser main.

Lemma set_stack_policy_dispatch_witness :
  exists c,
    ParseCliArguments modelParse logger.IsVerbosityValid
      [ "perun"; "set-stack-policy"; "mystack"; "policy.json";
        "--enable-stack-termination" ] = Return c None /\
    forall config,
      calls (dispatch (fun _ => true) (fun _ => None)
               (fun ok => Some (if ok then 0 else 1)%Z)
               (fun err => Some (if err is None then 0 else 1)%Z)
               configurator.ints configurator.strs
               (fun _ => configurator.StatFound) ("/root", None) 0
               {| CliArguments := c; Config := config |}
               {| calls := []; wizard := configurator.w0 |}).2
        = [SetTerminationProtection].
Proof.
  eexists. split; [vm_compute; reflexivity|]. intros config.
  lazymatch goal with
  | |- context [ {| CliArguments := ?c; Config := _ |} ] =>
      destruct (set_stack_policy_dispatch (fun _ => true) (fun _ => None)
                  (fun ok => Some (if ok then 0 else 1)%Z)
                  (fun err => Some (if err is None then 0 else 1)%Z)
                  configurator.ints configurator.strs
                  (fun _ => configurator.StatFound) ("/root", None) 0
                  modelParse logger.IsVerbosityValid
                  [ "perun"; "set-stack-policy"; "mystack"; "policy.json";
                    "--enable-stack-termination" ] c config
                  {| calls := []; wizard := configurator.w0 |})
        as (disable & enable & op & Hd & He & Hcalls & Hop & _)
  end.
  - vm_compute. reflexivity.
  - reflexivity.
  - rewrite Hcalls. cbn in He. injection He as <-.
    rewrite (proj2 Hop) by (by right). reflexivity.
Defined.

End MainExamples.

(* ===================================================================== *)
(** * Further properties *)
(* ===================================================================== *)

(** ** The wizard: profile selection, the menu, saving *)

Section WizardMore.

Import configurator.

Variable answerInt : nat -> Z.
Variable answerString : nat -> string.
Variable Stat : string -> StatResult.
Variable GetUserHomeDir : string * option string.

Local Abbreviation setRegions := (configurator.setRegions answerInt).
Local Abbreviation setProfile := (configurator.setProfile answerString).
Local Abbreviation regionLoop := (configurator.regionLoop answerInt).
Local Abbreviation profileLoop := (configurator.profileLoop answerString).
Local Abbreviation chooseRegion := (configurator.chooseRegion answerInt).
Local Abbreviation chooseProfile := (configurator.chooseProfile answerString).
Local Abbreviation createConfig := (configurator.createConfig answerInt answerString).
Local Abbreviation findFile := (configurator.findFile answerInt answerString Stat).
Local Abbreviation FileName :=
  (configurator.FileName answerInt answerString Stat GetUserHomeDir).

Lemma chooseProfile_diverges (fuel : nat) :
  forall w : World,
    (forall i, answerString (reads w + i) = "") ->
    chooseProfile fuel w = None.
Proof.
  induction fuel as [|fuel IH]; intros w Hbad.
  - apply (chooseProfile_retry _ w 0). specialize (Hbad 0).
    by rewrite Nat.add_0_r in Hbad.
  - assert (Hw : answerString (reads w) = "").
    { specialize (Hbad 0). by rewrite Nat.add_0_r in Hbad. }
    destruct (chooseProfile_retry _ w fuel Hw) as [_ ->].
    apply IH. intros i. cbn [emit reads]. rewrite setProfile_reads.
    replace (S (reads w) + i) with (reads w + S i) by lia. apply Hbad.
Qed.

(** X1.  [setProfile] accepts the answer iff it is not empty.  The profile
    loop of [createConfig] ends after [j] retries with the first non-empty
    answer, at offset [j]; when every answer is empty the loop returns for no
    fuel, and neither does [createConfig], whatever region was accepted. *)
Theorem profile_loop_terminates_iff_some_non_empty (w : World) :
  ((setProfile w).1.2 = true <-> answerString (reads w) <> "") /\
  (forall j,
     (forall i, i < j -> answerString (reads w + i) = "") ->
     answerString (reads w + j) <> "" ->
     exists w',
       reads w' = reads w + S j /\
       forall fuel,
         chooseProfile fuel w =
           if decide (j <= fuel)
           then Some (answerString (reads w + j), w') else None) /\
  ((forall i, answerString (reads w + i) = "") ->
   forall fuel, chooseProfile fuel w = None) /\
  ((forall i, answerString i = "") ->
   forall fuel w1, createConfig fuel w1 = None).
Proof.
  split; [|split; [|split]].
  - destruct (decide (answerString (reads w) = "")) as [Hp|Hp].
    + by rewrite (setProfile_rejected _ w Hp).
    + by rewrite (setProfile_accepted _ w Hp).
  - intros j. apply chooseProfile_first_non_empty.
  - intros Hbad fuel. by apply chooseProfile_diverges.
  - intros Hbad fuel w1. unfold configurator.createConfig.
    destruct (chooseRegion fuel w1) as [[myRegion w2]|]; [|done].
    by rewrite chooseProfile_diverges.
Qed.

(** *** Worlds that continue without saving *)

Lemma continues_refl (w : World) : continues w w.
Proof. split; [done|]. exists []. by rewrite app_nil_r. Qed.

Lemma continues_trans (w1 w2 w3 : World) :
  continues w1 w2 -> continues w2 w3 -> continues w1 w3.
Proof.
  intros [Hr1 (l1 & Ht1 & Hl1)] [Hr2 (l2 & Ht2 & Hl2)]. split; [lia|].
  exists (l1 ++ l2). split; [by rewrite Ht2, Ht1, app_assoc|].
  by apply Forall_app.
Qed.

Lemma continues_after2 (w : World) (n : nat) (e1 e2 : Event) :
  isSaveToFile e1 = false -> isSaveToFile e2 = false ->
  continues w (after2 w n e1 e2).
Proof.
  intros H1 H2. split; [cbn; lia|]. exists [e1; e2]. split; [done|].
  by repeat constructor.
Qed.

Lemma continues_emit (w : World) (e : Event) :
  isSaveToFile e = false -> continues w (emit e w).
Proof.
  intros H. split; [done|]. exists [e]. split; [done|]. by repeat constructor.
Qed.

Lemma setRegions_continues (w : World) : continues w (setRegions w).2.
Proof.
  destruct (decide (0 <= answerInt (reads w) < 14)%Z) as [Hn|Hn].
  - rewrite (setRegions_accepted _ w Hn). by apply continues_after2.
  - rewrite (setRegions_rejected _ w Hn). by apply continues_after2.
Qed.

Lemma setProfile_continues (w : World) : continues w (setProfile w).2.
Proof.
  destruct (decide (answerString (reads w) = "")) as [Hp|Hp].
  - rewrite (setProfile_rejected _ w Hp). by apply continues_after2.
  - rewrite (setProfile_accepted _ w Hp). by apply continues_after2.
Qed.

Lemma regionLoop_continues (fuel : nat) :
  forall r w x w', regionLoop fuel r w = Some (x, w') -> continues w w'.
Proof.
  induction fuel as [|fuel IH]; intros [r b] w x w';
    cbn [configurator.regionLoop fst snd]; destruct b; try done;
    try (intros [= _ <-]; apply continues_refl).
  pose proof (setRegions_continues
                (emit (Always "Try again, invalid region") w)) as Hc.
  destruct (setRegions _) as [r' w1]. intros H%IH.
  apply (continues_trans _ (emit (Always "Try again, invalid region") w));
    [by apply continues_emit|].
  by apply (continues_trans _ w1).
Qed.

Lemma profileLoop_continues (fuel : nat) :
  forall r w x w', profileLoop fuel r w = Some (x, w') -> continues w w'.
Proof.
  induction fuel as [|fuel IH]; intros [r b] w x w';
    cbn [configurator.profileLoop fst snd]; destruct b; try done;
    try (intros [= _ <-]; apply continues_refl).
  pose proof (setProfile_continues
                (emit (Always "Try again, invalid profile") w)) as Hc.
  destruct (setProfile _) as [r' w1]. intros H%IH.
  apply (continues_trans _ (emit (Always "Try again, invalid profile") w));
    [by apply continues_emit|].
  by apply (continues_trans _ w1).
Qed.

(** The profile that the loop returns was accepted by [setProfile]. *)
Lemma profileLoop_non_empty (fuel : nat) :
  forall r w profile w',
    (r.2 = true -> r.1 <> "") ->
    profileLoop fuel r w = Some (profile, w') -> profile <> "".
Proof.
  induction fuel as [|fuel IH]; intros [r b] w profile w' Hr;
    cbn [configurator.profileLoop fst snd]; destruct b; try done;
    try (intros [= <- _]; by apply Hr).
  destruct (setProfile _) as [r' w1] eqn:E. apply IH. intros Hb.
  set (w2 := emit (Always "Try again, invalid profile") w) in *.
  destruct (decide (answerString (reads w2) = "")) as [Hp|Hp].
  - rewrite (setProfile_rejected _ w2 Hp) in E. by simplify_eq.
  - rewrite (setProfile_accepted _ w2 Hp) in E. by simplify_eq.
Qed.

(** Every region of the catalog has its resource specification URL. *)
Lemma catalog_has_url (region : string) :
  region ∈ makeArrayRegions ->
  is_Some (resourceSpecificationURL !! region).
Proof.
  unfold makeArrayRegions. intros H.
  repeat (apply elem_of_cons in H as [->|H];
          [eexists; vm_compute; reflexivity|]).
  by apply elem_of_nil in H.
Qed.

Lemma createConfig_invariants (fuel : nat) (w w' : World)
    (con : Configuration) :
  createConfig fuel w = Some (con, w') ->
  DefaultRegion con ∈ makeArrayRegions /\
  is_Some (SpecificationURL con !! DefaultRegion con) /\
  DefaultProfile con <> "" /\
  DefaultDecisionForMFA con = false /\
  DefaultDurationForMFA con = 3600%Z /\
  DefaultVerbosity con = "INFO" /\
  reads w + 2 <= reads w' /\
  continues w w'.
Proof.
  unfold configurator.createConfig.
  destruct (chooseRegion fuel w) as [[myRegion w1]|] eqn:E1; [|done].
  destruct (chooseProfile fuel w1) as [[myProfile w2]|] eqn:E2; [|done].
  intros [= <- <-]. cbn [DefaultRegion DefaultProfile SpecificationURL
    DefaultDecisionForMFA DefaultDurationForMFA DefaultVerbosity].
  unfold configurator.chooseRegion in E1.
  unfold configurator.chooseProfile in E2.
  pose proof (setRegions_selects_from_catalog answerInt w) as Hsel.
  pose proof (setRegions_continues w) as Hc1.
  pose proof (setRegions_reads answerInt w) as Hr1.
  destruct (setRegions w) as [r wa].
  pose proof (setProfile_continues w1) as Hc2.
  pose proof (setProfile_reads answerString w1) as Hr2.
  assert (Hp : (setProfile w1).1.2 = true -> (setProfile w1).1.1 <> "").
  { destruct (decide (answerString (reads w1) = "")) as [Hp|Hp].
    - by rewrite (setProfile_rejected _ w1 Hp).
    - by rewrite (setProfile_accepted _ w1 Hp). }
  destruct (setProfile w1) as [p wb].
  assert (Hin : myRegion ∈ makeArrayRegions)
    by (eapply regionLoop_selects_from_catalog; [exact Hsel|exact E1]).
  pose proof (regionLoop_continues _ _ _ _ _ E1) as Hl1.
  pose proof (profileLoop_continues _ _ _ _ _ E2) as Hl2.
  pose proof (profileLoop_non_empty _ _ _ _ _ Hp E2) as Hne.
  split; [done|]. split; [by apply catalog_has_url|].
  do 4 (split; [done|]). split.
  - cbn [snd] in *. destruct Hl1 as [? _], Hl2 as [? _]. lia.
  - cbn [snd] in *.
    eapply continues_trans; [exact Hc1|].
    eapply continues_trans; [exact Hl1|].
    eapply continues_trans; [exact Hc2|exact Hl2].
Qed.

(** X2.  Whatever the answers and the fuel, a record that [createConfig]
    returns has a region of the catalog, for which its own URL mapping has
    an entry, a profile that is not empty, and the three fixed defaults; at
    least two answers were consumed and nothing was saved on the way. *)
Theorem createConfig_sound (fuel : nat) (w w' : World) (con : Configuration) :
  createConfig fuel w = Some (con, w') ->
  DefaultRegion con ∈ makeArrayRegions /\
  is_Some (SpecificationURL con !! DefaultRegion con) /\
  DefaultProfile con <> "" /\
  DefaultDecisionForMFA con = false /\
  DefaultDurationForMFA con = 3600%Z /\
  DefaultVerbosity con = "INFO" /\
  reads w + 2 <= reads w' /\
  continues w w'.
Proof. apply createConfig_invariants. Qed.

(** What [createConfig] returns on answers of which the one at offset [k]
    is the first region number in range and, after it, the one at offset
    [j] the first profile that is not empty. *)
Lemma createConfig_first_answers (w : World) (k j : nat) :
  (forall i, i < k -> ~ (0 <= answerInt (reads w + i) < 14)%Z) ->
  (0 <= answerInt (reads w + k) < 14)%Z ->
  (forall i, i < j -> answerString (reads w + S k + i) = "") ->
  answerString (reads w + S k + j) <> "" ->
  exists w',
    reads w' = reads w + S k + S j /\
    forall fuel, k <= fuel -> j <= fuel ->
      createConfig fuel w =
        Some ({| DefaultProfile := answerString (reads w + S k + j);
                 DefaultRegion :=
                   index makeArrayRegions (answerInt (reads w + k));
                 SpecificationURL := resourceSpecificationURL;
                 DefaultDecisionForMFA := false;
                 DefaultDurationForMFA := 3600;
                 DefaultVerbosity := "INFO" |}, w').
Proof.
  intros Hk Hregion Hj Hprofile.
  destruct (chooseRegion_first_in_range _ k w Hk Hregion)
    as (w1 & Hr1 & Hloop1).
  rewrite <- Hr1 in Hj, Hprofile.
  destruct (chooseProfile_first_non_empty _ j w1 Hj Hprofile)
    as (w2 & Hr2 & Hloop2).
  exists w2. split; [lia|]. intros fuel Hfk Hfj.
  unfold configurator.createConfig.
  rewrite Hloop1, decide_True by done.
  rewrite Hloop2, decide_True by done.
  by rewrite Hr1.
Qed.

(** [FileName] when a file is found under the directory and the name that
    the operator gave. *)
Lemma FileName_found (fuel : nat) (w : World) :
  Stat (answerString (reads w) +:+ "/" +:+ answerString (S (reads w)))
    = StatFound ->
  exists w',
    FileName fuel w = Some w' /\
    reads w' = 2 + reads w /\
    continues w w'.
Proof.
  intros Hstat. unfold configurator.FileName.
  destruct GetUserHomeDir as [homePath [e|]];
    unfold getInputString, configurator.findFile, emit;
    cbn [reads trace fst snd]; rewrite Hstat; cbn [IsNotExist];
    (eexists; split; [reflexivity|]; split; [done|]);
    (split; [cbn; lia|]); cbn [trace];
    rewrite <- ?app_assoc; eexists; (split; [reflexivity|]);
    by repeat constructor.
Qed.

(** *** The menu *)

Lemma foldl_emit (f : nat -> Event) (l : list nat) :
  forall w : World,
    foldl (fun w i => emit (f i) w) w l =
      {| reads := reads w; trace := trace w ++ (f <$> l) |}.
Proof.
  induction l as [|i l IH]; intros w; cbn [foldl fmap list_fmap].
  - rewrite app_nil_r. by destruct w.
  - rewrite IH. cbn [emit reads trace]. by rewrite <- app_assoc.
Qed.

(** The line of [showRegions] for the index [i]. *)
Lemma showRegions_trace (w : World) :
  showRegions w =
    {| reads := reads w;
       trace :=
         trace w
         ++ Always "Regions:"
            :: ((fun i => Always ("Number " +:+ pretty (Z.of_nat i)
                                  +:+ " region "
                                  +:+ default "" (makeArrayRegions !! i)))
                <$> seq 0 (length makeArrayRegions)) |}.
Proof.
  unfold showRegions. rewrite foldl_emit. cbn [emit reads trace].
  by rewrite <- app_assoc.
Qed.

Lemma showRegions_reads (w : World) : reads (showRegions w) = reads w.
Proof. by rewrite showRegions_trace. Qed.

Lemma showRegions_continues (w : World) : continues w (showRegions w).
Proof.
  rewrite showRegions_trace. split; [done|]. eexists. split; [done|].
  constructor; [done|]. by apply Forall_fmap, Forall_true.
Qed.

(** X3.  [showRegions] asks nothing and saves nothing; after the line
    "Regions:" it prints one line per entry of the catalog, in order, and
    the number it prints beside a region is a number on which [setRegions]
    returns that region. *)
Theorem showRegions_menu (w : World) :
  reads (showRegions w) = reads w /\
  continues w (showRegions w) /\
  length (trace (showRegions w)) = length (trace w) + 15 /\
  trace (showRegions w) !! length (trace w) = Some (Always "Regions:") /\
  forall (i : nat) (region : string),
    makeArrayRegions !! i = Some region ->
    trace (showRegions w) !! (length (trace w) + S i)
      = Some (Always ("Number " +:+ pretty (Z.of_nat i)
                      +:+ " region " +:+ region)) /\
    forall w1 : World,
      answerInt (reads w1) = Z.of_nat i ->
      (setRegions w1).1 = (region, true).
Proof.
  rewrite showRegions_trace. cbn [reads trace]. split; [done|].
  split; [|split; [|split]].
  - split; [done|]. eexists. split; [done|].
    constructor; [done|]. by apply Forall_fmap, Forall_true.
  - rewrite length_app. cbn [length]. by rewrite length_fmap, length_seq.
  - rewrite lookup_app_r by lia. by rewrite Nat.sub_diag.
  - intros i region Hi. pose proof (lookup_lt_Some _ _ _ Hi) as Hlt. split.
    + rewrite lookup_app_r by lia.
      replace (length (trace w) + S i - length (trace w)) with (S i) by lia.
      lazymatch goal with
      | |- (?x :: ?l) !! S ?n = _ => change ((x :: l) !! S n) with (l !! n)
      end.
      rewrite list_lookup_fmap.
      rewrite lookup_seq_lt by done. cbn [fmap option_fmap option_map].
      rewrite Nat.add_0_l. by rewrite Hi.
    + intros w1 Hanswer. cbn [length makeArrayRegions] in Hlt.
      rewrite setRegions_accepted by lia. cbn [fst]. f_equal.
      unfold index. by rewrite Hanswer, Nat2Z.id, Hi.
Qed.

(** *** Saving *)

(** X4.  [findFile] calls [configuration.SaveToFile] only on a path for
    which [os.Stat] reports that nothing exists, then once, as its last
    action, for that same path and with a record of [createConfig].  On any
    other outcome of [os.Stat], a file that is there or an error such as a
    refused permission, it prints that the file already exists, asks nothing
    and saves nothing. *)
Theorem findFile_saves_once_on_free_path
    (fuel : nat) (path : string) (w w' : World) :
  findFile fuel path w = Some w' ->
  if IsNotExist (Stat path) then
    exists (l : list Event) (con : Configuration),
      trace w' = trace w ++ l ++ [SaveToFile con path] /\
      Forall (fun e => isSaveToFile e = false) l /\
      DefaultRegion con ∈ makeArrayRegions /\
      DefaultProfile con <> "" /\
      reads w + 2 <= reads w'
  else
    w' = after2 w 0 (Always ("File will be created in " +:+ path))
           (Always "File already exists in this path").
Proof.
  unfold configurator.findFile. destruct (IsNotExist (Stat path)).
  - set (w1 := showRegions (emit _ w)).
    destruct (createConfig fuel w1) as [[con w2]|] eqn:E; [|done].
    intros [= <-].
    destruct (createConfig_invariants _ _ _ _ E)
      as (Hregion & _ & Hprofile & _ & _ & _ & Hreads & Hcont).
    assert (Hw1 : continues w w1).
    { apply (continues_trans _ (emit (Always ("File will be created in "
                                              +:+ path)) w)).
      - by apply continues_emit.
      - apply showRegions_continues. }
    destruct (continues_trans _ _ _ Hw1 Hcont) as [Hr (l & Ht & Hl)].
    exists l, con. cbn [emit trace reads]. rewrite Ht, <- app_assoc.
    destruct Hw1 as [? _]. repeat split; try done; lia.
  - intros [= <-]. unfold after2, emit. cbn [reads trace].
    by rewrite <- app_assoc.
Qed.

(** X5.  On a free path the whole wizard goes through: the operator gives
    a directory and a file name, [k] region numbers out of range and one in
    range, [j] empty profiles and one that is not; with fuel for the retries
    [FileName] returns, having consumed these answers and no more, and its
    last action is to save the record of C6 under directory/name. *)
Theorem FileName_saves_record (fuel : nat) (w : World) (k j : nat) :
  let path :=
    answerString (reads w) +:+ "/" +:+ answerString (S (reads w)) in
  let first := reads w + 2 in
  Stat path = StatNotExist ->
  (forall i, i < k -> ~ (0 <= answerInt (first + i) < 14)%Z) ->
  (0 <= answerInt (first + k) < 14)%Z ->
  (forall i, i < j -> answerString (first + S k + i) = "") ->
  answerString (first + S k + j) <> "" ->
  k <= fuel -> j <= fuel ->
  exists w',
    FileName fuel w = Some w' /\
    reads w' = first + S k + S j /\
    last (trace w') =
      Some (SaveToFile
              {| DefaultProfile := answerString (first + S k + j);
                 DefaultRegion :=
                   index makeArrayRegions (answerInt (first + k));
                 SpecificationURL := resourceSpecificationURL;
                 DefaultDecisionForMFA := false;
                 DefaultDurationForMFA := 3600;
                 DefaultVerbosity := "INFO" |} path).
Proof.
  cbv zeta. intros Hstat Hk Hregion Hj Hprofile Hfk Hfj.
  unfold configurator.FileName.
  destruct GetUserHomeDir as [homePath pathError].
  unfold getInputString. cbn [reads trace emit].
  set (w1 := {| reads := S (S _); trace := _ |}).
  assert (Hr1 : reads w1 = reads w + 2).
  { subst w1. destruct pathError; cbn [reads emit]; lia. }
  replace (reads (match pathError with
                  | Some e => emit (Error e) w
                  | None => w
                  end)) with (reads w) by by destruct pathError.
  unfold configurator.findFile. rewrite Hstat. cbn [IsNotExist].
  set (w2 := showRegions (emit _ w1)).
  assert (Hr2 : reads w2 = reads w + 2).
  { subst w2. by rewrite showRegions_reads. }
  rewrite <- Hr2 in Hk, Hregion, Hj, Hprofile.
  destruct (createConfig_first_answers w2 k j Hk Hregion Hj Hprofile)
    as (w3 & Hr3 & Hcreate).
  rewrite (Hcreate fuel Hfk Hfj). eexists. split; [done|].
  cbn [emit reads trace]. rewrite Hr2 in *. split; [lia|].
  by rewrite last_snoc.
Qed.

End WizardMore.

Section WizardMoreExamples.

Import configurator.

Lemma createConfig_sound_witness :
  exists con w',
    createConfig ints strs 2 w0 = Some (con, w') /\
    DefaultRegion con = "ca-central-1" /\
    is_Some (SpecificationURL con !! DefaultRegion con) /\
    DefaultProfile con = "dev" /\
    reads w' = 5.
Proof.
  destruct (createConfig ints strs 2 w0) as [[con w']|] eqn:E;
    [|vm_compute in E; discriminate].
  exists con, w'. split; [done|].
  destruct (createConfig_sound ints strs 2 w0 w' con E)
    as (_ & Hurl & _).
  vm_compute in E. injection E as <- <-. by repeat split.
Defined.

Lemma findFile_saves_once_on_free_path_witness :
  exists w' l con,
    findFile ints strs (fun _ => StatNotExist) 2 "/etc/perun/main.yaml" w0
      = Some w' /\
    trace w' = l ++ [SaveToFile con "/etc/perun/main.yaml"] /\
    Forall (fun e => isSaveToFile e = false) l /\
    DefaultRegion con ∈ makeArrayRegions.
Proof.
  destruct (findFile ints strs (fun _ => StatNotExist) 2
              "/etc/perun/main.yaml" w0) as [w'|] eqn:E;
    [|vm_compute in E; discriminate].
  destruct (findFile_saves_once_on_free_path ints strs
              (fun _ => StatNotExist) 2 "/etc/perun/main.yaml" w0 w' E)
    as (l & con & Ht & Hl & Hregion & _).
  by exists w', l, con.
Defined.

Lemma FileName_saves_record_witness :
  let answerInt := fun k => nth k [0; 0; 20; 5]%Z (-1)%Z in
  let answerString :=
    fun k => nth k ["/etc/perun"; "main.yaml"; ""; ""; ""; "dev"] "" in
  exists w',
    FileName answerInt answerString
      (fun path => if String.eqb path "/etc/perun/main.yaml"
                   then StatNotExist else StatFound)
      ("/root", None) 1 w0 = Some w' /\
    reads w' = 6 /\
    last (trace w') =
      Some (SaveToFile
              {| DefaultProfile := "dev";
                 DefaultRegion := "ca-central-1";
                 SpecificationURL := resourceSpecificationURL;
                 DefaultDecisionForMFA := false;
                 DefaultDurationForMFA := 3600;
                 DefaultVerbosity := "INFO" |} "/etc/perun/main.yaml").
Proof.
  cbv zeta.
  apply (FileName_saves_record
           (fun k => nth k [0; 0; 20; 5]%Z (-1)%Z)
           (fun k => nth k ["/etc/perun"; "main.yaml"; ""; ""; ""; "dev"] "")
           (fun path => if String.eqb path "/etc/perun/main.yaml"
                        then StatNotExist else StatFound)
           ("/root", None) 1 w0 1 1).
  - reflexivity.
  - intros [|i] Hi; [simpl; lia | lia].
  - simpl. lia.
  - intros [|i] Hi; [reflexivity | lia].
  - discriminate.
  - lia.
  - lia.
Defined.

End WizardMoreExamples.

(** ** The dispatcher: every mode *)

Section MainMore.

Import cliparser main.

Variable valid : Call -> bool.
Variable failure : Call -> option string.
Variable CheckFlagAndExit : bool -> option Z.
Variable CheckErrorCodeAndExit : option string -> option Z.
Variable answerInt : nat -> Z.
Variable answerString : nat -> string.
Variable Stat : string -> configurator.StatResult.
Variable GetUserHomeDir : string * option string.
Variable fuel : nat.

Local Abbreviation dispatch :=
  (main.dispatch valid failure CheckFlagAndExit CheckErrorCodeAndExit
     answerInt answerString Stat GetUserHomeDir fuel).

(** Unfold the chain of [if]s on a context whose mode is known. *)
Ltac run_dispatch Hmode :=
  unfold main.dispatch, ifMode, bind, deref, checkFlag, checkError, bind,
    record, exitOn, ret, main.Exit;
  rewrite Hmode.

(** X6.  Each of the ten modes below runs its own branch of [main] and no
    other: the calls it makes and the way it ends are those of the table.
    The two validators and the four stack operations end as
    [CheckFlagAndExit] and [CheckErrorCodeAndExit] say, and if such a helper
    returned [main] would return after it without a further call; the two
    sink modes and create-parameters end with status 0 whatever their
    collaborator returned; mfa takes profile, region and duration from the
    configuration and ends with status 0, or logs the error and ends with
    status 1. *)
Theorem dispatch_runs_one_branch (context : Context) (s : State)
    (m : string) (made : list Call) (ends : Result unit) :
  let after (code : option Z) : Result unit :=
    match code with Some code => Exited code | None => Value tt end in
  let token :=
    UpdateSessionToken
      (configurator.DefaultProfile (Config context))
      (configurator.DefaultRegion (Config context))
      (configurator.DefaultDurationForMFA (Config context)) in
  Mode (CliArguments context) = Some m ->
  (m, made, ends) ∈
    [ (ValidateMode, [ValidateAndEstimateCosts],
       after (CheckFlagAndExit (valid ValidateAndEstimateCosts)));
      (ConvertMode, [Convert],
       after (CheckErrorCodeAndExit (failure Convert)));
      (OfflineValidateMode, [Validate],
       after (CheckFlagAndExit (valid Validate)));
      (CreateStackMode, [NewStack],
       after (CheckErrorCodeAndExit (failure NewStack)));
      (DestroyStackMode, [DestroyStack],
       after (CheckErrorCodeAndExit (failure DestroyStack)));
      (UpdateStackMode, [UpdateStack],
       after (CheckErrorCodeAndExit (failure UpdateStack)));
      (SetupSinkMode, [ConfigureRemoteSink], Exited 0);
      (DestroySinkMode, [DestroyRemoteSink], Exited 0);
      (CreateParametersMode, [ConfigureParameters], Exited 0);
      (MfaMode,
       token :: match failure token with
                | Some e => [LoggerError e]
                | None => []
                end,
       match failure token with Some _ => Exited 1 | None => Exited 0 end) ] ->
  dispatch context s =
    (ends, {| calls := calls s ++ made; wizard := wizard s |}).
Proof.
  cbv zeta. intros Hmode Hin.
  repeat (apply elem_of_cons in Hin as [[= -> -> ->]|Hin]);
    [..|by apply elem_of_nil in Hin];
    run_dispatch Hmode; cbn;
    repeat match goal with
           | |- context [match ?x with Some _ => _ | None => _ end] =>
               destruct x
           end;
    cbn; rewrite <- ?app_assoc; reflexivity.
Qed.

(** X7.  A descriptor without mode makes [main] dereference nil before any
    call; a mode that is none of the twelve names makes it return without
    calling anything: no branch is a default. *)
Theorem dispatch_without_branch (context : Context) (s : State) :
  (Mode (CliArguments context) = None ->
   dispatch context s = (Panicked, s)) /\
  (forall m,
     Mode (CliArguments context) = Some m -> m ∉ Modes ->
     dispatch context s = (Value tt, s)).
Proof.
  split.
  - intros Hmode. by run_dispatch Hmode.
  - intros m Hmode Hm.
    assert (Hne : forall mode, mode ∈ Modes -> String.eqb m mode = false).
    { intros mode Hin. apply String.eqb_neq. by intros ->. }
    run_dispatch Hmode. cbn.
    repeat (rewrite Hne by (unfold Modes; set_solver); cbn).
    reflexivity.
Qed.

(** X8.  In configure mode [main] calls no collaborator: it runs the wizard
    and ends with status 0 whenever the wizard returns, also when the wizard
    gave up because the file exists; then the world of the wizard holds the
    two prompts for the path and no call of [SaveToFile]. *)
Theorem dispatch_configure (context : Context) (s : State) :
  Mode (CliArguments context) = Some ConfigureMode ->
  (forall w',
     configurator.FileName answerInt answerString Stat GetUserHomeDir fuel
       (wizard s) = Some w' ->
     dispatch context s = (Exited 0, {| calls := calls s; wizard := w' |})) /\
  (configurator.FileName answerInt answerString Stat GetUserHomeDir fuel
     (wizard s) = None ->
   dispatch context s = (OutOfFuel, s)) /\
  (Stat (answerString (configurator.reads (wizard s)) +:+ "/"
         +:+ answerString (S (configurator.reads (wizard s))))
     = configurator.StatFound ->
   exists w',
     dispatch context s = (Exited 0, {| calls := calls s; wizard := w' |}) /\
     configurator.reads w' = 2 + configurator.reads (wizard s) /\
     configurator.continues (wizard s) w').
Proof.
  intros Hmode.
  assert (Hrun : dispatch context s =
    match configurator.FileName answerInt answerString Stat GetUserHomeDir
            fuel (wizard s) with
    | Some w => (Exited 0, {| calls := calls s; wizard := w |})
    | None => (OutOfFuel, s)
    end).
  { run_dispatch Hmode. cbn. unfold main.FileName.
    by destruct (configurator.FileName _ _ _ _ _ _). }
  split; [|split].
  - intros w' H. by rewrite Hrun, H.
  - intros H. by rewrite Hrun, H.
  - intros Hstat.
    destruct (FileName_found answerInt answerString Stat GetUserHomeDir
                fuel (wizard s) Hstat) as (w' & Hfile & Hreads & Hcont).
    exists w'. by rewrite Hrun, Hfile.
Qed.

End MainMore.

Section MainMoreExamples.

Import cliparser main.

Lemma dispatch_runs_one_branch_witness :
  dispatch (fun _ => true) (fun _ => Some "no credentials")
    (fun ok => Some (if ok then 0 else 1)%Z)
    (fun err => Some (if err is None then 0 else 1)%Z)
    configurator.ints configurator.strs
    (fun _ => configurator.StatFound) ("/root", None) 0
    {| CliArguments := populated SetupSinkMode (cliparser.bind ∅);
       Config :=
         {| configurator.DefaultProfile := "dev";
            configurator.DefaultRegion := "eu-west-1";
            configurator.SpecificationURL := ∅;
            configurator.DefaultDecisionForMFA := false;
            configurator.DefaultDurationForMFA := 3600;
            configurator.DefaultVerbosity := "INFO" |} |}
    {| calls := []; wizard := configurator.w0 |}
  = (Exited 0,
     {| calls := [ConfigureRemoteSink]; wizard := configurator.w0 |}).
Proof.
  apply (dispatch_runs_one_branch (fun _ => true)
           (fun _ => Some "no credentials")
           (fun ok => Some (if ok then 0 else 1)%Z)
           (fun err => Some (if err is None then 0 else 1)%Z)
           configurator.ints configurator.strs
           (fun _ => configurator.StatFound) ("/root", None) 0
           _ {| calls := []; wizard := configurator.w0 |}
           SetupSinkMode [ConfigureRemoteSink] (Exited 0)).
  - reflexivity.
  - set_solver.
Defined.

Lemma dispatch_configure_witness :
  exists w',
    dispatch (fun _ => true) (fun _ => None)
      (fun ok => Some (if ok then 0 else 1)%Z)
      (fun err => Some (if err is None then 0 else 1)%Z)
      configurator.ints configurator.strs
      (fun _ => configurator.StatFound) ("/root", None) 0
      {| CliArguments := populated ConfigureMode (cliparser.bind ∅);
         Config :=
           {| configurator.DefaultProfile := "dev";
              configurator.DefaultRegion := "eu-west-1";
              configurator.SpecificationURL := ∅;
              configurator.DefaultDecisionForMFA := false;
              configurator.DefaultDurationForMFA := 3600;
              configurator.DefaultVerbosity := "INFO" |} |}
      {| calls := []; wizard := configurator.w0 |}
    = (Exited 0, {| calls := []; wizard := w' |}) /\
    configurator.reads w' = 2.
Proof.
  destruct (proj2 (proj2 (dispatch_configure (fun _ => true) (fun _ => None)
              (fun ok => Some (if ok then 0 else 1)%Z)
              (fun err => Some (if err is None then 0 else 1)%Z)
              configurator.ints configurator.strs
              (fun _ => configurator.StatFound) ("/root", None) 0
              {| CliArguments := populated ConfigureMode (cliparser.bind ∅);
                 Config :=
                   {| configurator.DefaultProfile := "dev";
                      configurator.DefaultRegion := "eu-west-1";
                      configurator.SpecificationURL := ∅;
                      configurator.DefaultDecisionForMFA := false;
                      configurator.DefaultDurationForMFA := 3600;
                      configurator.DefaultVerbosity := "INFO" |} |}
              {| calls := []; wizard := configurator.w0 |} eq_refl))
              eq_refl) as (w' & Hrun & Hreads & _).
  by exists w'.
Defined.

End MainMoreExamples.

(** ** The parser: what a returned descriptor holds *)

Section ParserMore.

Import cliparser.

Variable Parse : list string -> kingpin.ParseResult bound.Vars.
Variable IsVerbosityValid : string -> bool.

Local Abbreviation ParseCliArguments :=
  (cliparser.ParseCliArguments Parse IsVerbosityValid).
Local Abbreviation validate := (cliparser.validate IsVerbosityValid).

(** [validate] on a descriptor with the shared flags set never panics. *)
Lemma validate_populated (command : string) (b : bound.Vars) :
  exists err, validate (populated command b) = Return (populated command b) err.
Proof.
  unfold cliparser.validate.
  destruct (populated_shared command b) as [-> ->].
  repeat case_match; by eexists.
Qed.

(** Case analysis on the command, with the equation of each case. *)
Ltac by_command command tac :=
  cbv [populated switch cases find fst snd];
  repeat
    (lazymatch goal with
     | |- context [String.eqb command ?mode] =>
         let E := fresh "E" in
         destruct (String.eqb command mode) eqn:E;
         [ apply String.eqb_eq in E; subst; tac
         | apply String.eqb_neq in E ]
     end).

(** X9.  [ParseCliArguments] panics on the empty argument list and on no
    other: the pointers that lines 233-243 dereference are never nil.  When
    it returns, [app.Parse] had selected a command and all ten shared flags
    of the descriptor are set, to what kingpin bound; when the process ends
    inside it, kingpin ended it or reported an error. *)
Theorem ParseCliArguments_outcomes (args : list string) :
  (ParseCliArguments args = Panic <-> args = []) /\
  (forall c err,
     ParseCliArguments args = Return c err ->
     exists prog args1 command b,
       args = prog :: args1 /\
       Parse args1 = kingpin.Parsed command b /\
       c = populated command b /\
       Quiet c = Some (bound.quiet b) /\
       Yes c = Some (bound.yes b) /\
       Verbosity c = Some (bound.verbosity b) /\
       MFA c = Some (bound.mfa b) /\
       DurationForMFA c = Some (bound.DurationForMFA b) /\
       Profile c = Some (bound.profile b) /\
       Region c = Some (bound.region b) /\
       Sandbox c = Some (bound.sandbox b) /\
       ConfigurationPath c = Some (bound.configurationPath b) /\
       Progress c = Some (bound.showProgress b)) /\
  (forall code,
     ParseCliArguments args = Exit code ->
     exists prog args1,
       args = prog :: args1 /\
       (Parse args1 = kingpin.Terminated code \/
        code = 1%Z /\ exists e, Parse args1 = kingpin.ParseError e)).
Proof.
  unfold cliparser.ParseCliArguments, ParseCliArgumentsWith.
  destruct args as [|prog args1]; [by split_and!|].
  destruct (Parse args1) as [command b|e|code] eqn:E.
  - change (otherFlags b (switch command (cases b) zero))
      with (populated command b).
    destruct (validate_populated command b) as [err ->].
    split_and!; [done| |done].
    intros c err' [= <- <-]. exists prog, args1, command, b.
    split_and!; done.
  - split_and!; [done|done|]. intros code [= <-].
    exists prog, args1. split; [done|]. right. eauto.
  - split_and!; [done|done|]. intros code' [= <-].
    exists prog, args1. split; [done|]. by left.
Qed.

Lemma populated_mode (command : string) (b : bound.Vars) :
  Mode (populated command b) =
    if decide (command ∈ Modes) then Some command else None.
Proof.
  by_command command ltac:(compute_done).
  rewrite decide_False; [reflexivity|]. unfold Modes. intros Hin.
  repeat (apply elem_of_cons in Hin as [->|Hin]; [done|]).
  by apply elem_of_nil in Hin.
Qed.

Lemma ParseCliArguments_return_inv (args : list string)
    (c : CliArguments) (err : option string) :
  ParseCliArguments args = Return c err ->
  exists prog args1 command b,
    args = prog :: args1 /\
    Parse args1 = kingpin.Parsed command b /\
    c = populated command b.
Proof.
  unfold cliparser.ParseCliArguments, ParseCliArgumentsWith.
  destruct args as [|prog args1]; [done|].
  destruct (Parse args1) as [command b|e|code] eqn:E; [|done..].
  intros H%validate_returns. by exists prog, args1, command, b.
Qed.

(** X10.  The mode of the descriptor is the command that kingpin selected
    when that is one of the twelve mode names, and nil otherwise: the switch
    has no default case. *)
Theorem mode_is_the_selected_command (prog : string) (args : list string)
    (command : string) (b : bound.Vars) :
  Parse args = kingpin.Parsed command b ->
  exists c err,
    ParseCliArguments (prog :: args) = Return c err /\
    Mode c = if decide (command ∈ Modes) then Some command else None.
Proof.
  intros H. destruct (validate_populated command b) as [err Hv].
  exists (populated command b), err.
  split; [by rewrite (ParseCliArguments_parsed _ _ prog _ _ _ H)|].
  apply populated_mode.
Qed.

(** X11.  No field leaks from one mode into another: in the descriptor of a
    command, each mode-specific pointer is set exactly for the modes whose
    case assigns it, and all of them are nil when no case matches. *)
Theorem mode_fields_are_set_by_their_modes (prog : string)
    (args : list string) (command : string) (b : bound.Vars) :
  Parse args = kingpin.Parsed command b ->
  exists c err,
    ParseCliArguments (prog :: args) = Return c err /\
    (is_Some (TemplatePath c) <->
       command ∈ [ ValidateMode; OfflineValidateMode; ConvertMode;
                   CreateStackMode; UpdateStackMode; CreateParametersMode;
                   SetStackPolicyMode ]) /\
    (is_Some (Stack c) <->
       command ∈ [ CreateStackMode; DestroyStackMode; UpdateStackMode;
                   SetStackPolicyMode ]) /\
    (is_Some (Capabilities c) <->
       command ∈ [CreateStackMode; UpdateStackMode]) /\
    (is_Some (Parameters c) <->
       command ∈ [CreateStackMode; CreateParametersMode]) /\
    (is_Some (OutputFilePath c) <->
       command ∈ [ConvertMode; CreateParametersMode]) /\
    (is_Some (PrettyPrint c) <->
       command ∈ [ConvertMode; CreateParametersMode]) /\
    (is_Some (ParametersFile c) <-> command = CreateStackMode) /\
    (is_Some (Block c) <-> command = SetStackPolicyMode) /\
    (is_Some (Unblock c) <-> command = SetStackPolicyMode) /\
    (is_Some (DisableStackTermination c) <-> command = SetStackPolicyMode) /\
    (is_Some (EnableStackTermination c) <-> command = SetStackPolicyMode).
Proof.
  intros H. destruct (validate_populated command b) as [err Hv].
  exists (populated command b), err.
  split; [by rewrite (ParseCliArguments_parsed _ _ prog _ _ _ H)|].
  clear. by_command command ltac:(split_and!; compute_done).
  split_and!;
    (split; [by intros [? [=]] | intros Hin; exfalso]);
    first [ congruence
          | repeat (apply elem_of_cons in Hin as [->|Hin]; [done|]);
            by apply elem_of_nil in Hin ].
Qed.

End ParserMore.

Section ParserMoreExamples.

Import cliparser.

Lemma mode_is_the_selected_command_witness :
  exists c err,
    ParseCliArguments modelParse logger.IsVerbosityValid
      ["perun"; "validate"; "template.yaml"] = Return c err /\
    Mode c = Some "validate".
Proof.
  exact (mode_is_the_selected_command modelParse logger.IsVerbosityValid
           "perun" ["validate"; "template.yaml"] "validate" _ eq_refl).
Defined.

Lemma mode_fields_are_set_by_their_modes_witness :
  exists c err,
    ParseCliArguments modelParse logger.IsVerbosityValid
      ["perun"; "delete-stack"; "mystack"] = Return c err /\
    Stack c = Some "mystack" /\
    TemplatePath c = None /\
    Capabilities c = None.
Proof.
  destruct (mode_fields_are_set_by_their_modes modelParse
              logger.IsVerbosityValid "perun" ["delete-stack"; "mystack"]
              "delete-stack" _ eq_refl)
    as (c & err & Hrun & Htemplate & _ & Hcapabilities & _).
  exists c, err. split; [done|].
  vm_compute in Hrun. injection Hrun as <- _. by split_and!.
Defined.

End ParserMoreExamples.

(** ** The model of kingpin: the command it selects *)

Section ModelFacts.

Import kingpin.

Variable app : Application.

Local Abbreviation ok := (selectedIsMatched app).

Local Abbreviation stepOk := (kingpin.stepOk app).

Lemma matched_ok (e : Element) (c : ParseContext) :
  ok c -> ok (matched e c).
Proof.
  intros Hc cmd Hsel. destruct (Hc cmd Hsel) as [Hin Hel].
  split; [done|]. cbn. apply elem_of_app. by left.
Qed.

Lemma positional_ok (v : string) (c : ParseContext) :
  ok c -> stepOk (positional app v c).
Proof.
  intros Hc. unfold positional.
  destruct (SelectedCommand c) as [cmd|] eqn:Hsel.
  - destruct (arguments c) as [|a rest]; [done|]. cbn.
    apply matched_ok. destruct (argRemainder a); [done|].
    intros cmd' Hsel'. by apply Hc.
  - destruct (find _ (appCommands app)) as [cmd|] eqn:Hfind.
    + cbn. intros cmd' [= <-]. apply find_some in Hfind as [Hin _].
      split; [by apply list_elem_of_In|].
      cbn. apply elem_of_app. right. by apply list_elem_of_singleton.
    + by destruct (appCommands app).
Qed.

Lemma longFlag_ok (body : string) (c : ParseContext) :
  ok c -> stepOk (longFlag body c).
Proof.
  intros Hc. unfold longFlag.
  destruct (splitFirst isEq body) as [name attached].
  repeat case_match; cbn; try done; by apply matched_ok.
Qed.

Lemma shortFlags_ok (dashdash : bool) (chars : string) :
  forall c, ok c -> stepOk (shortFlags dashdash chars c).
Proof.
  induction chars as [|ch rest IH]; intros c Hc; cbn [shortFlags]; [done|].
  destruct (lookupShort ch c) as [f|]; [|done].
  destruct (IsBoolFlag _).
  - destruct rest as [|r rest']; [by apply matched_ok|].
    destruct (dashdash || _); [done|]. by apply IH, matched_ok.
  - destruct rest; [done|]. cbn. by apply matched_ok.
Qed.

Lemma step_ok (dashdash : bool) (a : string) (c : ParseContext) :
  ok c -> stepOk (step app dashdash a c).
Proof.
  intros Hc. unfold step.
  repeat case_match; try done;
    auto using positional_ok, longFlag_ok, shortFlags_ok.
Qed.

Lemma parse_ok (dashdash : bool) (n : nat) :
  forall args c c' err,
    length args <= n ->
    ok c -> parse app dashdash args c = Some (c', err) -> ok c'.
Proof.
  induction n as [|n IH]; intros [|a rest] c c' err Hlen Hc;
    cbn [parse length] in *; try (by intros [= <- _]); [lia|].
  pose proof (step_ok dashdash a c Hc) as Hstep.
  destruct (step app dashdash a c) as [c1 [e|]|f c1|]; cbn in Hstep.
  - by intros [= <- _].
  - apply IH; [lia|done].
  - destruct rest as [|r rest']; [by intros [= <- _]|].
    destruct (valueToken _ r) as [v|e|]; [|by intros [= <- _]|done].
    apply IH; [cbn [length] in Hlen; lia|]. by apply matched_ok.
  - done.
Qed.

(** The command of a successful [Parse] is a command of the application
    whose matching sets off no pre-action. *)
Lemma Parse_selects_a_command (args : list string) (command : string)
    (st : Store) :
  Parse app args = Some (Parsed command st) ->
  exists cmd,
    cmd ∈ appCommands app /\
    cmdName cmd = command /\
    hasAction Terminates (ElCmd cmd) = false.
Proof.
  unfold Parse.
  destruct (parse app _ args _) as [[c parseErr]|] eqn:Hparse; [|done].
  apply (parse_ok _ (length args)) in Hparse; [|done|done].
  destruct (existsb (hasAction NotModelled) _); [done|].
  destruct (existsb (hasAction Terminates) (Elements c)) eqn:Hterm.
  { cbn. by repeat case_match. }
  cbn [orb].
  destruct (existsb (hasAction ShowsHelp) _); [by repeat case_match|].
  destruct parseErr; [done|].
  destruct (setValues _ _ _); [|done..].
  destruct (validateRequired c); [done|].
  destruct (SelectedCommand c) as [cmd|] eqn:Hsel; [|done].
  intros [= <- <-]. exists cmd. destruct (Hparse cmd Hsel) as [Hin Hel].
  split; [done|]. split; [done|].
  destruct (hasAction Terminates (ElCmd cmd)) eqn:Hact; [|done].
  assert (existsb (hasAction Terminates) (Elements c) = true); [|congruence].
  apply existsb_exists. exists (ElCmd cmd). split; [|done].
  by apply list_elem_of_In.
Qed.

End ModelFacts.

(** ** From the command line to the call *)

Section EndToEnd.

Import cliparser main.

Variable valid : Call -> bool.
Variable failure : Call -> option string.
Variable CheckFlagAndExit : bool -> option Z.
Variable CheckErrorCodeAndExit : option string -> option Z.
Variable answerInt : nat -> Z.
Variable answerString : nat -> string.
Variable Stat : string -> configurator.StatResult.
Variable GetUserHomeDir : string * option string.
Variable fuel : nat.

Local Abbreviation dispatch :=
  (main.dispatch valid failure CheckFlagAndExit CheckErrorCodeAndExit
     answerInt answerString Stat GetUserHomeDir fuel).

(** The commands of [app] other than [help] are the twelve modes. *)
Lemma app_commands_are_modes (cmd : kingpin.CmdClause) :
  cmd ∈ kingpin.appCommands app ->
  kingpin.hasAction kingpin.Terminates (kingpin.ElCmd cmd) = false ->
  kingpin.cmdName cmd ∈ Modes.
Proof.
  unfold app. cbn [kingpin.appCommands]. intros Hin.
  repeat (apply elem_of_cons in Hin as [->|Hin];
          [first [by intros [=] | intros _; compute_done]|]).
  by apply elem_of_nil in Hin.
Qed.

(** With a mode among the twelve, and the two termination flags where the
    mode is set-stack-policy, no pointer that [main] dereferences is nil. *)
Lemma dispatch_dereferences (context : Context) (s : State) (m : string) :
  Mode (CliArguments context) = Some m ->
  m ∈ Modes ->
  (m = SetStackPolicyMode ->
   is_Some (DisableStackTermination (CliArguments context)) /\
   is_Some (EnableStackTermination (CliArguments context))) ->
  (dispatch context s).1 <> Panicked.
Proof.
  intros Hmode Hin Hflags. unfold Modes in Hin.
  repeat (apply elem_of_cons in Hin as [->|Hin]);
    [..|by apply elem_of_nil in Hin];
    try (destruct (Hflags eq_refl) as [[disable Hd] [enable He]]);
    unfold main.dispatch, ifMode, bind, deref, checkFlag, checkError, bind,
      record, exitOn, ret, main.Exit, main.FileName;
    rewrite Hmode; cbn; rewrite ?Hd, ?He;
    repeat case_match; cbn; repeat case_match; done.
Qed.

(** X12.  On every command line that the model of kingpin reads, a
    descriptor that [ParseCliArguments] returns has one of the twelve modes,
    and [main] dispatches on it without dereferencing a nil pointer, in
    set-stack-policy mode included. *)
Theorem parsed_descriptor_is_dispatched
    (IsVerbosityValid : string -> bool) (args : list string)
    (c : cliparser.CliArguments) (err : option string) :
  ParseCliArguments modelParse IsVerbosityValid args = Return c err ->
  (exists m, m ∈ Modes /\ Mode c = Some m) /\
  forall config s,
    (dispatch {| CliArguments := c; Config := config |} s).1 <> Panicked.
Proof.
  intros Hrun.
  destruct (ParseCliArguments_return_inv _ _ _ _ _ Hrun)
    as (prog & args1 & command & b & -> & Hparse & ->).
  assert (Hmode : command ∈ Modes).
  { unfold modelParse in Hparse.
    destruct (kingpin.Parse app args1) as [[command' st| |]|] eqn:E;
      try done.
    cbn in Hparse. injection Hparse as <- _.
    destruct (Parse_selects_a_command app _ _ _ E) as (cmd & Hin & <- & Hact).
    by apply app_commands_are_modes. }
  pose proof (populated_mode command b) as Hm.
  rewrite decide_True in Hm by done.
  split; [by exists command|].
  intros config s. apply (dispatch_dereferences _ _ command); [done..|].
  intros ->. by eapply set_stack_policy_flags.
Qed.

End EndToEnd.

Section EndToEndExamples.

Import cliparser main.

Lemma parsed_descriptor_is_dispatched_witness :
  exists c,
    ParseCliArguments modelParse logger.IsVerbosityValid
      ["perun"; "mfa"; "--profile"; "dev"] = Return c None /\
    Mode c = Some "mfa" /\ Profile c = Some "dev".
Proof.
  eexists. split; [vm_compute; reflexivity|].
  lazymatch goal with
  | |- Mode ?c = _ /\ _ =>
      destruct (parsed_descriptor_is_dispatched (fun _ => true)
                  (fun _ => None) (fun _ => Some 0%Z) (fun _ => Some 0%Z)
                  configurator.ints configurator.strs
                  (fun _ => configurator.StatFound) ("/root", None) 0
                  logger.IsVerbosityValid
                  ["perun"; "mfa"; "--profile"; "dev"] c None)
        as [(m & _ & Hm) _]
  end.
  - vm_compute. reflexivity.
  - by split.
Defined.

End EndToEndExamples.
